(** * CertificateVerify handshake step of s2n-tls

    A shallow embedding of [tls/s2n_client_cert_verify.c]: the receive path
    [s2n_client_cert_verify_recv], the send path [s2n_client_cert_verify_send]
    and its completion [s2n_client_cert_verify_send_complete], together with
    the collaborators they call (stuffer, signature-scheme negotiation,
    transcript hashes, asynchronous private-key operations).

    C state is threaded explicitly: a handshake step is a function from the
    connection to an outcome, the connection it leaves behind (also on
    error: C does not roll back) and the list of collaborator calls made. *)

From Stdlib Require Import ZArith List Bool Lia.
From coqutil Require Import Byte.
Import ListNotations.
Local Open Scope Z_scope.

(** ** Data model *)

(** C enums and opaque structs.  Algorithms and key types are the integer
    values of their enums; hash states and keys are the bytes of the
    structures, which this step only moves around and hands to primitives. *)
Definition s2n_hash_algorithm := Z.
Definition s2n_signature_algorithm := Z.
Definition s2n_pkey_type := Z.
Definition s2n_hash_state := list byte.
Definition s2n_pkey := list byte.

Inductive s2n_mode := S2N_SERVER | S2N_CLIENT.

(** [struct s2n_blob]: a data pointer and a 32-bit size, set separately. *)
Record s2n_blob := mk_blob { data : list byte; size : Z }.

(** [struct s2n_signature_scheme], the fields this step uses. *)
Record s2n_signature_scheme := mk_scheme {
  iana_value : Z;
  hash_alg : s2n_hash_algorithm;
  sig_alg : s2n_signature_algorithm
}.

(** Modelled from the spec: the buffer/cursor abstraction ([struct
    s2n_stuffer], not in this file).  [written] holds the bytes below the
    write cursor, [read_cursor] counts the bytes already read, [capacity]
    is the allocated size and [growable] says whether a write may extend
    it. *)
Record s2n_stuffer := mk_stuffer {
  written : list byte;
  read_cursor : nat;
  capacity : nat;
  growable : bool
}.

(** Modelled from the spec: the states of an asynchronous operation handle,
    [NotStarted -> Pending -> Completed | Failed]. *)
Inductive s2n_async_state := NotStarted | Pending | Completed | Failed.

(** Modelled from the spec: the live multi-algorithm transcript hash (one
    running state per started algorithm) and the workspace that receives the
    snapshot ([conn->handshake.hashes], of which this file names only
    [hash_workspace]). *)
Record s2n_handshake_hashes := mk_hashes {
  running : list (s2n_hash_algorithm * s2n_hash_state);
  hash_workspace : s2n_hash_state
}.

Record s2n_handshake := mk_handshake {
  io : s2n_stuffer;
  hashes : option s2n_handshake_hashes;     (* a pointer, may be NULL *)
  async_state : s2n_async_state;
  required_hash_algs : list s2n_hash_algorithm
}.

Record s2n_handshake_parameters := mk_params {
  client_cert_sig_scheme : s2n_signature_scheme;
  client_public_key : s2n_pkey;
  client_cert_pkey_type : s2n_pkey_type;
  server_cert_pkey_type : s2n_pkey_type;
  private_key : s2n_pkey
}.

Record s2n_connection := mk_conn {
  actual_protocol_version : Z;
  handshake : s2n_handshake;
  handshake_params : s2n_handshake_parameters;
  async_pkey_cb : bool                      (* an asynchronous backend is configured *)
}.

(** Modelled from the spec: the error taxonomy of section 7, with the null
    reference raised by [POSIX_ENSURE_REF] and the full buffer of a write. *)
Inductive s2n_error :=
| NullReference
| NegotiationError
| MalformedMessageError
| TranscriptStateError
| VerificationFailure
| AsyncOperationError
| AsyncPending
| BufferFull.

Inductive result (A : Type) :=
| Ok (a : A)
| Err (e : s2n_error).
Arguments Ok {A} a.
Arguments Err {A} e.

Definition is_ok {A} (r : result A) : bool :=
  match r with Ok _ => true | Err _ => false end.

(** The collaborator calls a step makes, with the arguments that matter. *)
Inductive call :=
| Call_choose_default_sig_scheme (signer : s2n_mode)
| Call_get_and_validate_negotiated_signature_scheme
| Call_handshake_get_hash_state (alg : s2n_hash_algorithm)
| Call_hash_copy (from : s2n_hash_state)
| Call_pkey_verify (key : s2n_pkey) (alg : s2n_signature_algorithm)
    (digest : s2n_hash_state) (signature : s2n_blob) (ok : bool)
| Call_async_pkey_sign (alg : s2n_signature_algorithm) (digest : s2n_hash_state)
| Call_conn_update_required_handshake_hashes.

(** ** Field updates *)

Definition set_io (s : s2n_stuffer) (c : s2n_connection) : s2n_connection :=
  let h := handshake c in
  mk_conn (actual_protocol_version c)
    (mk_handshake s (hashes h) (async_state h) (required_hash_algs h))
    (handshake_params c) (async_pkey_cb c).

Definition set_async_state (a : s2n_async_state) (c : s2n_connection) : s2n_connection :=
  let h := handshake c in
  mk_conn (actual_protocol_version c)
    (mk_handshake (io h) (hashes h) a (required_hash_algs h))
    (handshake_params c) (async_pkey_cb c).

Definition set_required_hash_algs (l : list s2n_hash_algorithm) (c : s2n_connection)
  : s2n_connection :=
  let h := handshake c in
  mk_conn (actual_protocol_version c)
    (mk_handshake (io h) (hashes h) (async_state h) l)
    (handshake_params c) (async_pkey_cb c).

(** A store through [conn->handshake.hashes] when that pointer is NULL does
    not happen in this file (both entry points check it first); the model
    leaves the connection as it is there. *)
Definition set_hash_workspace (w : s2n_hash_state) (c : s2n_connection) : s2n_connection :=
  let h := handshake c in
  mk_conn (actual_protocol_version c)
    (mk_handshake (io h)
       (match hashes h with
        | Some hs => Some (mk_hashes (running hs) w)
        | None => None
        end)
       (async_state h) (required_hash_algs h))
    (handshake_params c) (async_pkey_cb c).

Definition set_client_cert_sig_scheme (s : s2n_signature_scheme) (c : s2n_connection)
  : s2n_connection :=
  let p := handshake_params c in
  mk_conn (actual_protocol_version c) (handshake c)
    (mk_params s (client_public_key p) (client_cert_pkey_type p)
       (server_cert_pkey_type p) (private_key p))
    (async_pkey_cb c).

(** A C pointer into the connection: how to load and how to store through
    it.  [in], [out] and [chosen_sig_scheme] of the source are such
    pointers, so what a callee writes through them is connection state. *)
Record place (A : Type) := mk_place {
  load : s2n_connection -> A;
  store : A -> s2n_connection -> s2n_connection
}.
Arguments load {A} p c.
Arguments store {A} p a c.

(** [&conn->handshake.io] *)
Definition handshake_io : place s2n_stuffer :=
  mk_place _ (fun c => io (handshake c)) set_io.

(** [&conn->handshake_params.client_cert_sig_scheme] *)
Definition handshake_params_client_cert_sig_scheme : place s2n_signature_scheme :=
  mk_place _ (fun c => client_cert_sig_scheme (handshake_params c))
    set_client_cert_sig_scheme.

(** [&conn->handshake.hashes->hash_workspace] *)
Definition hashes_hash_workspace : place s2n_hash_state :=
  mk_place _
    (fun c => match hashes (handshake c) with
              | Some hs => hash_workspace hs
              | None => []
              end)
    set_hash_workspace.

(** [&conn->handshake_params.client_public_key] (read only here) *)
Definition handshake_params_client_public_key : place s2n_pkey :=
  mk_place _ (fun c => client_public_key (handshake_params c)) (fun _ c => c).

(** ** Handshake steps: state, errors and the call log *)

Definition step (A : Type) : Type :=
  s2n_connection -> result A * s2n_connection * list call.

Definition ret {A} (a : A) : step A := fun c => (Ok a, c, []).

Definition bind {A B} (m : step A) (k : A -> step B) : step B :=
  fun c =>
    match m c with
    | (Ok a, c1, l1) =>
        match k a c1 with
        | (r, c2, l2) => (r, c2, l1 ++ l2)
        end
    | (Err e, c1, l1) => (Err e, c1, l1)
    end.

(** [POSIX_BAIL] *)
Definition bail {A} (e : s2n_error) : step A := fun c => (Err e, c, []).

Definition get_conn : step s2n_connection := fun c => (Ok c, c, []).
Definition modify (f : s2n_connection -> s2n_connection) : step unit :=
  fun c => (Ok tt, f c, []).
Definition tell (k : call) : step unit := fun c => (Ok tt, c, [k]).

Declare Scope step_scope.
Delimit Scope step_scope with step.
Notation "x <- m ;; k" := (bind m (fun x => k))
  (at level 61, m at next level, right associativity) : step_scope.
Notation "m ;; k" := (bind m (fun _ => k))
  (at level 61, right associativity) : step_scope.
Local Open Scope step_scope.

(** [POSIX_ENSURE_REF(p)]: fail on a NULL pointer. *)
Definition POSIX_ENSURE_REF {A} (p : option A) : step A :=
  match p with
  | Some a => ret a
  | None => bail NullReference
  end.

(** Run an operation on the stuffer a pointer designates. *)
Definition on_stuffer {A} (p : place s2n_stuffer)
    (f : s2n_stuffer -> result A * s2n_stuffer) : step A :=
  fun c =>
    match f (load p c) with
    | (r, s') => (r, store p s' c, [])
    end.

(** ** The stuffer *)

Definition s2n_stuffer_data_available (s : s2n_stuffer) : nat :=
  (length (written s) - read_cursor s)%nat.

Definition unread (s : s2n_stuffer) : list byte :=
  skipn (read_cursor s) (written s).

Definition skip_read (n : nat) (s : s2n_stuffer) : s2n_stuffer :=
  mk_stuffer (written s) (read_cursor s + n) (capacity s) (growable s).

(** The value of a big-endian 16-bit field. *)
Definition uint16_of (b0 b1 : byte) : Z :=
  Z.lor (Z.shiftl (byte.unsigned b0) 8) (byte.unsigned b1).

(** Modelled from the spec: sequential reads of fixed-width integers and raw
    byte ranges; a read fails, consuming nothing, if insufficient bytes
    remain.  [s2n_stuffer_read_uint16] reads two bytes, big-endian. *)
Definition s2n_stuffer_read_uint16 (s : s2n_stuffer) : result Z * s2n_stuffer :=
  match unread s with
  | b0 :: b1 :: _ => (Ok (uint16_of b0 b1), skip_read 2 s)
  | _ => (Err MalformedMessageError, s)
  end.

(** Modelled from the spec: [s2n_stuffer_raw_read] hands out the next [n]
    bytes in place and moves the read cursor past them, or returns NULL. *)
Definition s2n_stuffer_raw_read (n : Z) (s : s2n_stuffer)
  : result (option (list byte)) * s2n_stuffer :=
  if n <=? Z.of_nat (s2n_stuffer_data_available s)
  then (Ok (Some (firstn (Z.to_nat n) (unread s))), skip_read (Z.to_nat n) s)
  else (Ok None, s).

(** Modelled from the spec: sequential writes.  A write that does not fit
    fails as a whole unless the stuffer is growable. *)
Definition s2n_stuffer_write_bytes (bs : list byte) (s : s2n_stuffer)
  : result unit * s2n_stuffer :=
  let need := (length (written s) + length bs)%nat in
  if (need <=? capacity s)%nat
  then (Ok tt, mk_stuffer (written s ++ bs) (read_cursor s) (capacity s) (growable s))
  else if growable s
  then (Ok tt, mk_stuffer (written s ++ bs) (read_cursor s) need (growable s))
  else (Err BufferFull, s).

Definition uint16_bytes (v : Z) : list byte :=
  [byte.of_Z (Z.shiftr v 8); byte.of_Z v].

Definition s2n_stuffer_write_uint16 (v : Z) (s : s2n_stuffer) : result unit * s2n_stuffer :=
  s2n_stuffer_write_bytes (uint16_bytes v) s.

(** [s2n_stuffer_write(out, blob)] writes [blob->size] bytes of [blob->data]. *)
Definition s2n_stuffer_write (b : s2n_blob) (s : s2n_stuffer) : result unit * s2n_stuffer :=
  s2n_stuffer_write_bytes (firstn (Z.to_nat (size b)) (data b)) s.

Fixpoint lookup_hash (alg : s2n_hash_algorithm)
    (l : list (s2n_hash_algorithm * s2n_hash_state)) : option s2n_hash_state :=
  match l with
  | [] => None
  | (a, st) :: l' => if a =? alg then Some st else lookup_hash alg l'
  end.

(** The running transcript hash of the connection for one algorithm. *)
Definition running_hash (alg : s2n_hash_algorithm) (c : s2n_connection)
  : option s2n_hash_state :=
  match hashes (handshake c) with
  | Some hs => lookup_hash alg (running hs)
  | None => None
  end.

(** ** Collaborators and the three functions of the file *)

Section ClientCertVerify.

(** [S2N_TLS12], the first protocol version with an explicit scheme on the
    wire (a constant of [api/s2n.h]). *)
Variable S2N_TLS12 : Z.

(** The signature scheme registry: the default scheme of a version and key
    type, and the scheme an identifier denotes if it was offered/accepted
    on this connection. *)
Variable default_scheme_for : Z -> s2n_pkey_type -> option s2n_signature_scheme.
Variable validate_offered : Z -> s2n_connection -> option s2n_signature_scheme.

(** The key primitives.  Both are handed a digest state, which they may
    modify (reading the digest finalizes the state), and give it back. *)
Variable pkey_verify :
  s2n_pkey -> s2n_signature_algorithm -> s2n_hash_state -> s2n_blob ->
  bool * s2n_hash_state.
Variable pkey_sign :
  s2n_pkey -> s2n_signature_algorithm -> s2n_hash_state ->
  option (list byte) * s2n_hash_state.

(** Which transcript hash algorithms later messages still need. *)
Variable hash_still_required : s2n_connection -> s2n_hash_algorithm -> bool.

(** Modelled from the spec: [s2n_choose_default_sig_scheme] chooses the
    default scheme for the signer's role from version and key type, reads
    no wire bytes, and fails with a negotiation error if there is none. *)
Definition s2n_choose_default_sig_scheme
    (sig_scheme_out : place s2n_signature_scheme) (signer : s2n_mode) : step unit :=
  tell (Call_choose_default_sig_scheme signer) ;;
  c <- get_conn ;;
  let key_type :=
    match signer with
    | S2N_CLIENT => client_cert_pkey_type (handshake_params c)
    | S2N_SERVER => server_cert_pkey_type (handshake_params c)
    end in
  match default_scheme_for (actual_protocol_version c) key_type with
  | Some s => modify (store sig_scheme_out s)
  | None => bail NegotiationError
  end.

(** Modelled from the spec: [s2n_get_and_validate_negotiated_signature_scheme]
    reads a 2-byte scheme identifier and rejects it with a negotiation
    error unless it is in the set offered/accepted for this connection. *)
Definition s2n_get_and_validate_negotiated_signature_scheme
    (in_ : place s2n_stuffer) (chosen_sig_scheme : place s2n_signature_scheme)
  : step unit :=
  tell Call_get_and_validate_negotiated_signature_scheme ;;
  actual_iana_val <- on_stuffer in_ s2n_stuffer_read_uint16 ;;
  c <- get_conn ;;
  match validate_offered actual_iana_val c with
  | Some s => modify (store chosen_sig_scheme s)
  | None => bail NegotiationError
  end.

(** Modelled from the spec: [s2n_handshake_get_hash_state] retrieves the
    live running digest of an algorithm and fails if that algorithm has no
    running state. *)
Definition s2n_handshake_get_hash_state (alg : s2n_hash_algorithm)
  : step s2n_hash_state :=
  tell (Call_handshake_get_hash_state alg) ;;
  c <- get_conn ;;
  match running_hash alg c with
  | Some st => ret st
  | None => bail TranscriptStateError
  end.

(** Modelled from the spec: [s2n_hash_copy(to, from)] copies a digest
    state into the destination. *)
Definition s2n_hash_copy (to : place s2n_hash_state) (from : s2n_hash_state)
  : step unit :=
  tell (Call_hash_copy from) ;;
  modify (store to from).

(** Modelled from the spec: [s2n_pkey_verify] verifies a signature over
    the digest state it is handed; a mismatch is a verification failure. *)
Definition s2n_pkey_verify (pub_key : place s2n_pkey) (alg : s2n_signature_algorithm)
    (digest : place s2n_hash_state) (signature : s2n_blob) : step unit :=
  c <- get_conn ;;
  match pkey_verify (load pub_key c) alg (load digest c) signature with
  | (ok, digest') =>
      tell (Call_pkey_verify (load pub_key c) alg (load digest c) signature ok) ;;
      modify (store digest digest') ;;
      if ok then ret tt else bail VerificationFailure
  end.

(** Modelled from the spec: hash-algorithm minimization keeps, of the
    transcript hash algorithms retained so far, those later messages
    still need; the running hash states themselves are not touched. *)
Definition s2n_conn_update_required_handshake_hashes : step unit :=
  tell Call_conn_update_required_handshake_hashes ;;
  c <- get_conn ;;
  modify (set_required_hash_algs
            (filter (hash_still_required c) (required_hash_algs (handshake c)))).

(** Modelled from the spec: [S2N_ASYNC_PKEY_GUARD], the check at the head
    of a step that may have suspended.  Nothing started: run the rest of
    the function.  Pending: tell the caller to retry.  Completed: the
    handle is consumed and the function returns success.  Failed: fatal. *)
Definition S2N_ASYNC_PKEY_GUARD (rest : step unit) : step unit :=
  c <- get_conn ;;
  match async_state (handshake c) with
  | NotStarted => rest
  | Pending => bail AsyncPending
  | Completed => modify (set_async_state NotStarted)
  | Failed => bail AsyncOperationError
  end.

(** Modelled from the spec: [S2N_ASYNC_PKEY_SIGN], the start of a signing
    operation, which ends the calling function.  With a synchronous backend
    the signature is computed at once and handed to [on_complete]; the
    operation is complete within the call and leaves no handle behind.
    With an asynchronous backend the request is registered, the handle
    becomes [Pending] and the caller is told to retry; a start on a handle
    that is not [NotStarted] is an error. *)
Definition S2N_ASYNC_PKEY_SIGN (alg : s2n_signature_algorithm)
    (digest : place s2n_hash_state) (on_complete : s2n_blob -> step unit)
  : step unit :=
  c <- get_conn ;;
  if async_pkey_cb c then
    match async_state (handshake c) with
    | NotStarted =>
        tell (Call_async_pkey_sign alg (load digest c)) ;;
        modify (set_async_state Pending) ;;
        bail AsyncPending
    | _ => bail AsyncOperationError
    end
  else
    tell (Call_async_pkey_sign alg (load digest c)) ;;
    match pkey_sign (private_key (handshake_params c)) alg (load digest c) with
    | (Some sig, digest') =>
        modify (store digest digest') ;;
        on_complete (mk_blob sig (Z.of_nat (length sig)))
    | (None, digest') =>
        modify (store digest digest') ;;
        bail AsyncOperationError
    end.

(** Modelled from the spec: the resume entry point of a pending
    operation.  The backend's outcome moves the handle to [Failed] or, after
    the completion callback has run once with the signature, to
    [Completed]. *)
Definition s2n_async_pkey_op_apply (outcome : option (list byte))
    (on_complete : s2n_blob -> step unit) : step unit :=
  c <- get_conn ;;
  match async_state (handshake c) with
  | Pending =>
      match outcome with
      | Some sig =>
          on_complete (mk_blob sig (Z.of_nat (length sig))) ;;
          modify (set_async_state Completed)
      | None =>
          modify (set_async_state Failed) ;;
          bail AsyncOperationError
      end
  | _ => bail AsyncOperationError
  end.

(** An entry point receives [conn] as a pointer; [POSIX_ENSURE_REF(conn)]
    is its first statement. *)
Definition with_conn (conn : option s2n_connection) (body : step unit)
  : result unit * option s2n_connection * list call :=
  match conn with
  | None => (Err NullReference, None, [])
  | Some c =>
      match body c with
      | (r, c', l) => (r, Some c', l)
      end
  end.

(** [s2n_client_cert_verify_recv], after the check of [conn].  Every
    [POSIX_GUARD] is a bind: a failing callee ends the function with its
    error. *)
Definition s2n_client_cert_verify_recv_body : step unit :=
  c <- get_conn ;;
  _ <- POSIX_ENSURE_REF (hashes (handshake c)) ;;
  let in_ := handshake_io in
  let chosen_sig_scheme := handshake_params_client_cert_sig_scheme in
  (if actual_protocol_version c <? S2N_TLS12
   then s2n_choose_default_sig_scheme chosen_sig_scheme S2N_CLIENT
   else s2n_get_and_validate_negotiated_signature_scheme in_ chosen_sig_scheme) ;;
  signature_size <- on_stuffer in_ s2n_stuffer_read_uint16 ;;
  let signature := mk_blob [] signature_size in
  signature_data <- on_stuffer in_ (s2n_stuffer_raw_read (size signature)) ;;
  signature_data <- POSIX_ENSURE_REF signature_data ;;
  let signature := mk_blob signature_data (size signature) in
  c <- get_conn ;;
  hash_state <- s2n_handshake_get_hash_state (hash_alg (load chosen_sig_scheme c)) ;;
  s2n_hash_copy hashes_hash_workspace hash_state ;;
  c <- get_conn ;;
  s2n_pkey_verify handshake_params_client_public_key
    (sig_alg (load chosen_sig_scheme c)) hashes_hash_workspace signature ;;
  s2n_conn_update_required_handshake_hashes.

Definition s2n_client_cert_verify_recv (conn : option s2n_connection) :=
  with_conn conn s2n_client_cert_verify_recv_body.

(** [s2n_client_cert_verify_send_complete]; the 32-bit [signature->size]
    is converted to the 16-bit argument of [s2n_stuffer_write_uint16]. *)
Definition s2n_client_cert_verify_send_complete (signature : s2n_blob) : step unit :=
  let out := handshake_io in
  on_stuffer out (s2n_stuffer_write_uint16 (size signature mod 2 ^ 16)) ;;
  on_stuffer out (s2n_stuffer_write signature) ;;
  s2n_conn_update_required_handshake_hashes.

(** [s2n_client_cert_verify_send], after the check of [conn]. *)
Definition s2n_client_cert_verify_send_body : step unit :=
  c <- get_conn ;;
  _ <- POSIX_ENSURE_REF (hashes (handshake c)) ;;
  S2N_ASYNC_PKEY_GUARD (
    let out := handshake_io in
    let chosen_sig_scheme := handshake_params_client_cert_sig_scheme in
    c <- get_conn ;;
    (if actual_protocol_version c <? S2N_TLS12
     then s2n_choose_default_sig_scheme chosen_sig_scheme S2N_CLIENT
     else on_stuffer out
            (s2n_stuffer_write_uint16
               (iana_value (client_cert_sig_scheme (handshake_params c))))) ;;
    c <- get_conn ;;
    hash_state <- s2n_handshake_get_hash_state (hash_alg (load chosen_sig_scheme c)) ;;
    s2n_hash_copy hashes_hash_workspace hash_state ;;
    c <- get_conn ;;
    S2N_ASYNC_PKEY_SIGN (sig_alg (load chosen_sig_scheme c)) hashes_hash_workspace
      s2n_client_cert_verify_send_complete).

Definition s2n_client_cert_verify_send (conn : option s2n_connection) :=
  with_conn conn s2n_client_cert_verify_send_body.

(** The resume entry point for this message: the backend's outcome is
    applied with [s2n_client_cert_verify_send_complete] as the callback. *)
Definition s2n_client_cert_verify_send_resume (outcome : option (list byte))
    (conn : option s2n_connection) :=
  with_conn conn
    (s2n_async_pkey_op_apply outcome s2n_client_cert_verify_send_complete).

(** *** The send path with the callee of line 99 left open

    [s2n_conn_update_required_handshake_hashes] is called under
    [POSIX_GUARD]: whatever it returns, the caller returns.  In the three
    definitions below [update] stands for what the callee does once it has
    been called; it may fail.  They are the definitions above but for that:
    with the pruning of the retained algorithms for [update] they are the
    same functions. *)
Definition s2n_client_cert_verify_send_complete_with (update : step unit)
    (signature : s2n_blob) : step unit :=
  let out := handshake_io in
  on_stuffer out (s2n_stuffer_write_uint16 (size signature mod 2 ^ 16)) ;;
  on_stuffer out (s2n_stuffer_write signature) ;;
  (tell Call_conn_update_required_handshake_hashes ;; update).

Definition s2n_client_cert_verify_send_body_with (update : step unit) : step unit :=
  c <- get_conn ;;
  _ <- POSIX_ENSURE_REF (hashes (handshake c)) ;;
  S2N_ASYNC_PKEY_GUARD (
    let out := handshake_io in
    let chosen_sig_scheme := handshake_params_client_cert_sig_scheme in
    c <- get_conn ;;
    (if actual_protocol_version c <? S2N_TLS12
     then s2n_choose_default_sig_scheme chosen_sig_scheme S2N_CLIENT
     else on_stuffer out
            (s2n_stuffer_write_uint16
               (iana_value (client_cert_sig_scheme (handshake_params c))))) ;;
    c <- get_conn ;;
    hash_state <- s2n_handshake_get_hash_state (hash_alg (load chosen_sig_scheme c)) ;;
    s2n_hash_copy hashes_hash_workspace hash_state ;;
    c <- get_conn ;;
    S2N_ASYNC_PKEY_SIGN (sig_alg (load chosen_sig_scheme c)) hashes_hash_workspace
      (s2n_client_cert_verify_send_complete_with update)).

Definition s2n_client_cert_verify_send_with (update : step unit)
    (conn : option s2n_connection) :=
  with_conn conn (s2n_client_cert_verify_send_body_with update).

End ClientCertVerify.

(** ** Observations on the outcome of an entry point *)

Definition res_of (x : result unit * option s2n_connection * list call) : result unit :=
  fst (fst x).
Definition conn_of (x : result unit * option s2n_connection * list call)
  : option s2n_connection :=
  snd (fst x).
Definition calls_of (x : result unit * option s2n_connection * list call) : list call :=
  snd x.

Definition is_minimize (k : call) : bool :=
  match k with Call_conn_update_required_handshake_hashes => true | _ => false end.

Definition is_verify (k : call) : bool :=
  match k with Call_pkey_verify _ _ _ _ _ => true | _ => false end.

Definition is_verify_with (outcome : bool) (k : call) : bool :=
  match k with Call_pkey_verify _ _ _ _ ok => eqb ok outcome | _ => false end.

Definition is_sign (k : call) : bool :=
  match k with Call_async_pkey_sign _ _ => true | _ => false end.

Definition is_validate (k : call) : bool :=
  match k with Call_get_and_validate_negotiated_signature_scheme => true | _ => false end.

Definition is_get_hash_state (k : call) : bool :=
  match k with Call_handshake_get_hash_state _ => true | _ => false end.

Definition is_choose_default (k : call) : bool :=
  match k with Call_choose_default_sig_scheme _ => true | _ => false end.

(** The signatures handed to [s2n_pkey_verify] during a run. *)
Definition verified_signatures (l : list call) : list s2n_blob :=
  flat_map (fun k => match k with
                     | Call_pkey_verify _ _ _ s _ => [s]
                     | _ => []
                     end) l.

(** The bytes a run has read from, and appended to, the handshake buffer. *)
Definition bytes_read (c c' : s2n_connection) : nat :=
  (read_cursor (io (handshake c')) - read_cursor (io (handshake c)))%nat.

Definition bytes_appended (c c' : s2n_connection) : list byte :=
  skipn (length (written (io (handshake c)))) (written (io (handshake c'))).

Definition chosen_scheme (c : s2n_connection) : s2n_signature_scheme :=
  client_cert_sig_scheme (handshake_params c).

Definition workspace (c : s2n_connection) : s2n_hash_state :=
  load hashes_hash_workspace c.

(** The live running transcript hash states of the connection, for every
    algorithm at once. *)
Definition live_transcript (c : s2n_connection)
  : option (list (s2n_hash_algorithm * s2n_hash_state)) :=
  option_map running (hashes (handshake c)).

(** What the receive path has no business with: the content and the size
    of the buffer (it only moves the read cursor), the operation handle, the
    version, the keys and key types, the backend and the running
    transcript. *)
Definition outside_recv (c : s2n_connection) :=
  (actual_protocol_version c,
   (written (io (handshake c)), capacity (io (handshake c)), growable (io (handshake c))),
   async_state (handshake c), live_transcript c,
   (client_public_key (handshake_params c), private_key (handshake_params c)),
   (client_cert_pkey_type (handshake_params c),
    server_cert_pkey_type (handshake_params c)),
   async_pkey_cb c).

(** What the send path has no business with: the read cursor of the
    buffer, the version, the keys and key types, the backend and the
    running transcript. *)
Definition outside_send (c : s2n_connection) :=
  (actual_protocol_version c,
   (read_cursor (io (handshake c)), growable (io (handshake c))),
   live_transcript c,
   (client_public_key (handshake_params c), private_key (handshake_params c)),
   (client_cert_pkey_type (handshake_params c),
    server_cert_pkey_type (handshake_params c)),
   async_pkey_cb c).

(** ** Notions the statements of the specification use *)

Section Statements.

Variable S2N_TLS12 : Z.
Variable default_scheme_for : Z -> s2n_pkey_type -> option s2n_signature_scheme.
Variable validate_offered : Z -> s2n_connection -> option s2n_signature_scheme.
Variable pkey_verify :
  s2n_pkey -> s2n_signature_algorithm -> s2n_hash_state -> s2n_blob ->
  bool * s2n_hash_state.
Variable pkey_sign :
  s2n_pkey -> s2n_signature_algorithm -> s2n_hash_state ->
  option (list byte) * s2n_hash_state.
Variable hash_still_required : s2n_connection -> s2n_hash_algorithm -> bool.

(** A valid key pair: whatever the private key signs, the public key
    verifies, over the same digest state and with the same algorithm. *)
Definition valid_key_pair (priv pub : s2n_pkey) : Prop :=
  forall alg d sig d',
    pkey_sign priv alg d = (Some sig, d') ->
    fst (pkey_verify pub alg d (mk_blob sig (Z.of_nat (length sig)))) = true.

(** The server side of the client's handshake: the same version and
    transcript, the client's key type and the public half of its key. *)
Definition matching_peer (client server : s2n_connection) : Prop :=
  actual_protocol_version server = actual_protocol_version client
  /\ client_cert_pkey_type (handshake_params server)
     = client_cert_pkey_type (handshake_params client)
  /\ hashes (handshake server) <> None
  /\ (forall alg, running_hash alg server = running_hash alg client)
  /\ valid_key_pair (private_key (handshake_params client))
       (client_public_key (handshake_params server)).

(** The scheme of the CertificateVerify message: below TLS 1.2 the
    default of version and key type; from TLS 1.2 on the scheme the client
    has chosen, which must fit the 16-bit identifier field and have been
    offered/accepted on the server's connection. *)
Definition scheme_in_use (client server : s2n_connection)
    (scheme : s2n_signature_scheme) : Prop :=
  if actual_protocol_version client <? S2N_TLS12
  then default_scheme_for (actual_protocol_version client)
         (client_cert_pkey_type (handshake_params client)) = Some scheme
  else chosen_scheme client = scheme
       /\ 0 <= iana_value scheme < 2 ^ 16
       /\ forall s, validate_offered (iana_value scheme) (set_io s server) = Some scheme.

(** The message body on the wire. *)
Definition wire_message (legacy : bool) (scheme : s2n_signature_scheme)
    (sig : list byte) : list byte :=
  (if legacy then [] else uint16_bytes (iana_value scheme))
    ++ uint16_bytes (Z.of_nat (length sig)) ++ sig.

(** A whole CertificateVerify message body: the scheme identifier (from
    TLS 1.2 on), the signature length and that many signature bytes. *)
Definition complete_message (legacy : bool) (w : list byte) : Prop :=
  exists scheme_bytes sig,
    length scheme_bytes = (if legacy then 0%nat else 2%nat)
    /\ w = scheme_bytes ++ uint16_bytes (Z.of_nat (length sig)) ++ sig.

(** "A failed send step must not leave a truncated message in the
    buffer": what a failed send has appended is nothing, or a whole
    message. *)
Definition failed_send_leaves_no_partial_write : Prop :=
  forall c c' e l,
    s2n_client_cert_verify_send S2N_TLS12 default_scheme_for pkey_sign
      hash_still_required (Some c) = (Err e, Some c', l) ->
    bytes_appended c c' = []
    \/ complete_message (actual_protocol_version c <? S2N_TLS12) (bytes_appended c c').

(** What a send call from a handle not started has left in the buffer,
    by the step it got to.  [scheme_bytes] is what the call writes for the
    scheme: nothing below TLS 1.2, the 2-byte identifier from TLS 1.2 on.
    - The snapshot was not reached: nothing is appended.
    - The snapshot was reached but not the signing: the scheme bytes stay.
    - The signing was requested: with an asynchronous backend, or when the
      key primitive fails, the scheme bytes stay; when the primitive returns
      a signature, the whole message is there once the minimization has been
      invoked (whatever the minimization then returns), and otherwise a
      write has failed on a full buffer that cannot grow: the scheme bytes
      stay if the length did not fit, the scheme bytes and the length if the
      signature did not fit. *)
Definition send_left_in_buffer (scheme_bytes : list byte) (c cs : s2n_connection)
    (r : result unit) (l : list call) : Prop :=
  let out := io (handshake c) in
  let w := bytes_appended c cs in
  (existsb is_get_hash_state l = false -> w = [] /\ is_ok r = false)
  /\ (existsb is_get_hash_state l = true -> existsb is_sign l = false ->
      w = scheme_bytes /\ r = Err TranscriptStateError)
  /\ (forall a d,
        In (Call_async_pkey_sign a d) l ->
        if async_pkey_cb c
        then w = scheme_bytes /\ r = Err AsyncPending
        else
          match pkey_sign (private_key (handshake_params c)) a d with
          | (None, _) => w = scheme_bytes /\ r = Err AsyncOperationError
          | (Some sig, _) =>
              let len := uint16_bytes (Z.of_nat (length sig) mod 2 ^ 16) in
              if existsb is_minimize l
              then w = scheme_bytes ++ len ++ sig
              else
                r = Err BufferFull
                /\ growable out = false
                /\ if (length (written out) + length scheme_bytes + 2 <=? capacity out)%nat
                   then w = scheme_bytes ++ len
                        /\ (capacity out
                            < length (written out) + length scheme_bytes + 2 + length sig)%nat
                   else w = scheme_bytes
          end).

(** The same for the completion run on its own (on resume): the whole
    length-prefixed signature once the minimization has been invoked
    (whatever the minimization then returns), otherwise a failed write:
    nothing if the length did not fit, the length if the signature did not
    fit. *)
Definition completion_left_in_buffer (signature : s2n_blob) (c c' : s2n_connection)
    (r : result unit) (l : list call) : Prop :=
  let out := io (handshake c) in
  let w := bytes_appended c c' in
  let len := uint16_bytes (size signature mod 2 ^ 16) in
  let sig := firstn (Z.to_nat (size signature)) (data signature) in
  if existsb is_minimize l
  then w = len ++ sig
  else
    r = Err BufferFull
    /\ growable out = false
    /\ if (length (written out) + 2 <=? capacity out)%nat
       then w = len /\ (capacity out < length (written out) + 2 + length sig)%nat
       else w = [].

(** What is assumed of [s2n_conn_update_required_handshake_hashes], the
    callee of line 99, defined outside [s2n_client_cert_verify.c]: it
    leaves the handshake buffer alone, and none of the calls recorded in the
    log is made from inside it.  It may fail, and may change anything else
    in the connection. *)
Definition leaves_buffer_alone (update : step unit) : Prop :=
  forall c,
    io (handshake (snd (fst (update c)))) = io (handshake c)
    /\ snd (update c) = [].

(** "SignatureScheme and TranscriptHashSnapshot ... do not outlive [the
    call]": the connection a receive call leaves behind holds neither the
    scheme it chose nor its snapshot, that is, these two pieces of
    connection state are as before the call. *)
Definition scheme_and_snapshot_do_not_outlive_recv : Prop :=
  forall c c' r l,
    s2n_client_cert_verify_recv S2N_TLS12 default_scheme_for validate_offered
      pkey_verify hash_still_required (Some c) = (r, Some c', l) ->
    chosen_scheme c' = chosen_scheme c /\ workspace c' = workspace c.

End Statements.

(** A step leaves an observation of the connection as it was, whatever its
    outcome. *)
Definition preserves {A T : Type} (obs : s2n_connection -> T) (m : step A) : Prop :=
  forall c, obs (snd (fst (m c))) = obs c.

(** ** A concrete instance, to run the functions *)

Module Example.

Definition TLS12 : Z := 33.

Definition SHA1 : s2n_hash_algorithm := 2.
Definition SHA256 : s2n_hash_algorithm := 4.
Definition RSA : s2n_signature_algorithm := 1.
Definition ECDSA : s2n_signature_algorithm := 2.
Definition PKEY_RSA : s2n_pkey_type := 0.
Definition PKEY_ECDSA : s2n_pkey_type := 1.

Definition ecdsa_sha256 : s2n_signature_scheme := mk_scheme 0x0403 SHA256 ECDSA.
Definition ecdsa_sha1 : s2n_signature_scheme := mk_scheme 0x0203 SHA1 ECDSA.
Definition rsa_sha1 : s2n_signature_scheme := mk_scheme 0x0201 SHA1 RSA.

Definition default_scheme_for (v : Z) (k : s2n_pkey_type)
  : option s2n_signature_scheme :=
  if k =? PKEY_ECDSA then Some ecdsa_sha1
  else if k =? PKEY_RSA then Some rsa_sha1
  else None.

Definition validate_offered (id : Z) (c : s2n_connection)
  : option s2n_signature_scheme :=
  if id =? 0x0403 then Some ecdsa_sha256 else None.

Definition bytes_eqb (a b : list byte) : bool :=
  if list_eq_dec Byte.byte_eq_dec a b then true else false.

(** A toy signature: the key followed by the digest state.  Both
    primitives finalize the digest state they are handed (here: they
    append a marker byte). *)
Definition pkey_sign (key : s2n_pkey) (alg : s2n_signature_algorithm)
    (digest : s2n_hash_state) : option (list byte) * s2n_hash_state :=
  (Some (key ++ digest), digest ++ [Byte.xff]).

Definition pkey_verify (key : s2n_pkey) (alg : s2n_signature_algorithm)
    (digest : s2n_hash_state) (signature : s2n_blob) : bool * s2n_hash_state :=
  (bytes_eqb (firstn (Z.to_nat (size signature)) (data signature)) (key ++ digest),
   digest ++ [Byte.xff]).

Definition hash_still_required (c : s2n_connection) (alg : s2n_hash_algorithm) : bool :=
  alg =? SHA256.

Definition recv := s2n_client_cert_verify_recv TLS12 default_scheme_for
  validate_offered pkey_verify hash_still_required.
Definition send := s2n_client_cert_verify_send TLS12 default_scheme_for
  pkey_sign hash_still_required.
Definition resume := s2n_client_cert_verify_send_resume hash_still_required.

Definition empty_io : s2n_stuffer := mk_stuffer [] 0 0 true.
Definition key : s2n_pkey := [Byte.x2a].
Definition transcript : s2n_handshake_hashes :=
  mk_hashes [(SHA1, [Byte.x01]); (SHA256, [Byte.x02; Byte.x03])] [].

(** A client about to send, over TLS 1.2, with a synchronous backend. *)
Definition client : s2n_connection :=
  mk_conn TLS12
    (mk_handshake empty_io (Some transcript) NotStarted [SHA1; SHA256])
    (mk_params ecdsa_sha256 [] PKEY_ECDSA PKEY_ECDSA key)
    false.

(** The same client with an asynchronous backend. *)
Definition async_client : s2n_connection :=
  mk_conn TLS12
    (mk_handshake empty_io (Some transcript) NotStarted [SHA1; SHA256])
    (mk_params ecdsa_sha256 [] PKEY_ECDSA PKEY_ECDSA key)
    true.

(** A server about to receive [input], at version [v]. *)
Definition server (v : Z) (input : list byte) : s2n_connection :=
  mk_conn v
    (mk_handshake (mk_stuffer input 0 (length input) false) (Some transcript)
       NotStarted [SHA1; SHA256])
    (mk_params rsa_sha1 key PKEY_ECDSA PKEY_ECDSA [])
    false.

(** A client whose transcript has no running SHA-256 state. *)
Definition client_without_sha256 : s2n_connection :=
  mk_conn TLS12
    (mk_handshake empty_io (Some (mk_hashes [(SHA1, [Byte.x01])] [])) NotStarted
       [SHA1])
    (mk_params ecdsa_sha256 [] PKEY_ECDSA PKEY_ECDSA key)
    false.

(** The message the client sends: scheme 0x0403, length 3, signature. *)
Definition message : list byte :=
  [Byte.x04; Byte.x03; Byte.x00; Byte.x03; Byte.x2a; Byte.x02; Byte.x03].

(** The same message with the last signature byte flipped. *)
Definition forged_message : list byte :=
  [Byte.x04; Byte.x03; Byte.x00; Byte.x03; Byte.x2a; Byte.x02; Byte.x04].

(** A message whose scheme identifier 0x0404 was not offered. *)
Definition unoffered_message : list byte :=
  [Byte.x04; Byte.x04; Byte.x00; Byte.x03; Byte.x2a; Byte.x02; Byte.x03].

(** A message that declares nine signature bytes and carries three. *)
Definition truncated_message : list byte :=
  [Byte.x04; Byte.x03; Byte.x00; Byte.x09; Byte.x2a; Byte.x02; Byte.x03].

(** The asynchronous client while its signing operation is pending. *)
Definition pending_client : s2n_connection := set_async_state Pending async_client.

(** A connection whose [handshake.hashes] is NULL. *)
Definition client_without_hashes : s2n_connection :=
  mk_conn TLS12
    (mk_handshake empty_io None NotStarted [])
    (mk_params ecdsa_sha256 [] PKEY_ECDSA PKEY_ECDSA key)
    false.

(** A server whose transcript has no running SHA-256 state. *)
Definition server_without_sha256 : s2n_connection :=
  mk_conn TLS12
    (mk_handshake (mk_stuffer message 0 (length message) false)
       (Some (mk_hashes [(SHA1, [Byte.x01])] [])) NotStarted [SHA1])
    (mk_params rsa_sha1 key PKEY_ECDSA PKEY_ECDSA [])
    false.

(** The message followed by two more bytes. *)
Definition message_and_more : list byte := message ++ [Byte.x0b; Byte.x0c].

(** The signature of the client's message, as a blob. *)
Definition signature_blob : s2n_blob := mk_blob [Byte.x2a; Byte.x02; Byte.x03] 3.

(** A callee of line 99 that fails, and the send path that calls it. *)
Definition failing_update : step unit := bail NullReference.

Definition send_with := s2n_client_cert_verify_send_with TLS12 default_scheme_for
  pkey_sign.

End Example.

(** ** Symbolic execution of a step *)

(** Unfold the entry points, the collaborators and the step combinators,
    leaving the primitives, the stuffer and the field updates folded. *)
Ltac unfold_steps :=
  cbv beta iota zeta delta
    [s2n_client_cert_verify_recv s2n_client_cert_verify_send
     s2n_client_cert_verify_send_resume with_conn
     s2n_client_cert_verify_recv_body s2n_client_cert_verify_send_body
     s2n_client_cert_verify_send_complete
     s2n_client_cert_verify_send_with s2n_client_cert_verify_send_body_with
     s2n_client_cert_verify_send_complete_with
     s2n_choose_default_sig_scheme
     s2n_get_and_validate_negotiated_signature_scheme
     s2n_handshake_get_hash_state s2n_hash_copy s2n_pkey_verify
     s2n_conn_update_required_handshake_hashes
     S2N_ASYNC_PKEY_GUARD S2N_ASYNC_PKEY_SIGN s2n_async_pkey_op_apply
     POSIX_ENSURE_REF on_stuffer bind ret bail tell modify get_conn
     load store handshake_io handshake_params_client_cert_sig_scheme
     hashes_hash_workspace handshake_params_client_public_key
     running_hash res_of conn_of calls_of fst snd] in *.

(** Case analysis on the innermost scrutinee of the goal. *)
Ltac destruct_innermost x :=
  lazymatch x with
  | context [match ?y with _ => _ end] => destruct_innermost y
  | _ => destruct x eqn:?
  end.

Ltac break_goal :=
  match goal with
  | |- context [match ?x with _ => _ end] => destruct_innermost x
  end.

Ltac unfold_collaborators :=
  unfold s2n_choose_default_sig_scheme,
    s2n_get_and_validate_negotiated_signature_scheme,
    s2n_handshake_get_hash_state, s2n_hash_copy, s2n_pkey_verify,
    s2n_conn_update_required_handshake_hashes,
    S2N_ASYNC_PKEY_GUARD, S2N_ASYNC_PKEY_SIGN, s2n_async_pkey_op_apply.

(** Projections of updated connections. *)
Ltac simpl_conn :=
  cbn [set_io set_async_state set_required_hash_algs set_hash_workspace
       set_client_cert_sig_scheme
       actual_protocol_version handshake handshake_params async_pkey_cb
       io hashes async_state required_hash_algs
       client_cert_sig_scheme client_public_key client_cert_pkey_type
       server_cert_pkey_type private_key running hash_workspace
       data size] in *.

(** A scrutinee whose value is already known is not analysed again. *)
Ltac reuse_known :=
  repeat match goal with
    | H : ?x = _ |- context [match ?x with _ => _ end] =>
        rewrite H; unfold_steps; simpl_conn
    end.

Ltac run :=
  unfold_steps; simpl_conn; reuse_known;
  repeat (break_goal; unfold_steps; simpl_conn; reuse_known);
  cbn [app].

Section Properties.

Variable S2N_TLS12 : Z.
Variable default_scheme_for : Z -> s2n_pkey_type -> option s2n_signature_scheme.
Variable validate_offered : Z -> s2n_connection -> option s2n_signature_scheme.
Variable pkey_verify :
  s2n_pkey -> s2n_signature_algorithm -> s2n_hash_state -> s2n_blob ->
  bool * s2n_hash_state.
Variable pkey_sign :
  s2n_pkey -> s2n_signature_algorithm -> s2n_hash_state ->
  option (list byte) * s2n_hash_state.
Variable hash_still_required : s2n_connection -> s2n_hash_algorithm -> bool.

Local Abbreviation recv :=
  (s2n_client_cert_verify_recv S2N_TLS12 default_scheme_for validate_offered
     pkey_verify hash_still_required).
Local Abbreviation send :=
  (s2n_client_cert_verify_send S2N_TLS12 default_scheme_for pkey_sign
     hash_still_required).
Local Abbreviation send_complete :=
  (s2n_client_cert_verify_send_complete hash_still_required).
Local Abbreviation resume :=
  (s2n_client_cert_verify_send_resume hash_still_required).

(** *** The stuffer *)

Lemma read_uint16_ok (s : s2n_stuffer) (b0 b1 : byte) (rest : list byte) :
  unread s = b0 :: b1 :: rest ->
  s2n_stuffer_read_uint16 s = (Ok (uint16_of b0 b1), skip_read 2 s).
Proof.
  intros H. unfold s2n_stuffer_read_uint16. rewrite H. reflexivity.
Qed.

Lemma unread_skip_read (n : nat) (s : s2n_stuffer) :
  unread (skip_read n s) = skipn n (unread s).
Proof.
  unfold unread, skip_read. cbn. rewrite skipn_skipn. f_equal. lia.
Qed.

Lemma uint16_of_range (b0 b1 : byte) : 0 <= uint16_of b0 b1 <= 65535.
Proof.
  unfold uint16_of.
  pose proof (byte.unsigned_range b0) as H0.
  pose proof (byte.unsigned_range b1) as H1.
  assert (Hlt : Z.lor (Z.shiftl (byte.unsigned b0) 8) (byte.unsigned b1) < 2 ^ 16).
  { destruct (Z.eq_dec (Z.lor (Z.shiftl (byte.unsigned b0) 8) (byte.unsigned b1)) 0)
      as [-> | Hne]; [reflexivity|].
    apply Z.log2_lt_pow2.
    - assert (0 <= Z.lor (Z.shiftl (byte.unsigned b0) 8) (byte.unsigned b1)).
      { apply Z.lor_nonneg. split; [apply Z.shiftl_nonneg|]; lia. }
      lia.
    - rewrite Z.log2_lor; [|apply Z.shiftl_nonneg; lia|lia].
      apply Z.max_lub_lt.
      + destruct (Z.eq_dec (byte.unsigned b0) 0) as [-> | Hb0]; [cbn; lia|].
        rewrite Z.log2_shiftl by lia.
        assert (Z.log2 (byte.unsigned b0) < 8) by (apply Z.log2_lt_pow2; lia).
        lia.
      + destruct (Z.eq_dec (byte.unsigned b1) 0) as [-> | Hb1]; [cbn; lia|].
        assert (Z.log2 (byte.unsigned b1) < 8) by (apply Z.log2_lt_pow2; lia).
        lia. }
  split; [|lia].
  apply Z.lor_nonneg. split; [apply Z.shiftl_nonneg|]; lia.
Qed.

Lemma data_available_unread (s : s2n_stuffer) :
  s2n_stuffer_data_available s = length (unread s).
Proof.
  unfold s2n_stuffer_data_available, unread. now rewrite length_skipn.
Qed.

Lemma raw_read_spec (n : Z) (s : s2n_stuffer) :
  s2n_stuffer_raw_read n s
  = if n <=? Z.of_nat (length (unread s))
    then (Ok (Some (firstn (Z.to_nat n) (unread s))), skip_read (Z.to_nat n) s)
    else (Ok None, s).
Proof.
  unfold s2n_stuffer_raw_read. now rewrite data_available_unread.
Qed.

Lemma write_bytes_inv (bs : list byte) (s : s2n_stuffer) (r : result unit)
    (s' : s2n_stuffer) :
  s2n_stuffer_write_bytes bs s = (r, s') ->
  (r = Ok tt /\ written s' = written s ++ bs /\ read_cursor s' = read_cursor s)
  \/ (r = Err BufferFull /\ s' = s).
Proof.
  unfold s2n_stuffer_write_bytes.
  destruct (_ <=? _)%nat; [|destruct (growable s)]; intros [= <- <-]; auto.
Qed.

Lemma write_bytes_growable (bs : list byte) (s : s2n_stuffer) (r : result unit)
    (s' : s2n_stuffer) :
  growable s = true ->
  s2n_stuffer_write_bytes bs s = (r, s') ->
  r = Ok tt /\ written s' = written s ++ bs /\ growable s' = true.
Proof.
  intros Hg. unfold s2n_stuffer_write_bytes.
  destruct (_ <=? _)%nat; [|rewrite Hg]; intros [= <- <-]; auto.
Qed.

Lemma read_uint16_cursor (s : s2n_stuffer) (r : result Z) (s' : s2n_stuffer) :
  s2n_stuffer_read_uint16 s = (r, s') ->
  (read_cursor s <= read_cursor s')%nat /\ written s' = written s.
Proof.
  unfold s2n_stuffer_read_uint16.
  destruct (unread s) as [|b0 [|b1 tl]]; intros [= <- <-]; cbn; split;
    reflexivity || lia.
Qed.

Lemma raw_read_cursor (n : Z) (s : s2n_stuffer) (r : result (option (list byte)))
    (s' : s2n_stuffer) :
  s2n_stuffer_raw_read n s = (r, s') ->
  (read_cursor s <= read_cursor s')%nat /\ written s' = written s.
Proof.
  unfold s2n_stuffer_raw_read.
  destruct (_ <=? _); intros [= <- <-]; cbn; split; reflexivity || lia.
Qed.

Lemma set_io_same (c : s2n_connection) : set_io (io (handshake c)) c = c.
Proof. destruct c as [v [i h a q] p cb]. reflexivity. Qed.

Lemma bytes_appended_app (c c' : s2n_connection) (w : list byte) :
  written (io (handshake c')) = written (io (handshake c)) ++ w ->
  bytes_appended c c' = w.
Proof.
  intros H. unfold bytes_appended. rewrite H.
  rewrite skipn_app, skipn_all, Nat.sub_diag. reflexivity.
Qed.

Lemma uint16_roundtrip (v : Z) :
  0 <= v < 2 ^ 16 ->
  uint16_of (byte.of_Z (Z.shiftr v 8)) (byte.of_Z v) = v.
Proof.
  intros Hv. unfold uint16_of. rewrite !byte.unsigned_of_Z. unfold byte.wrap.
  rewrite <- (Z.mod_small v (2 ^ 16)) at 3 by lia.
  apply Z.bits_inj'. intros n Hn.
  rewrite Z.lor_spec, Z.shiftl_spec by lia.
  destruct (Z.ltb_spec n 8) as [Hlow | Hhigh].
  - rewrite (Z.testbit_neg_r _ (n - 8)) by lia.
    rewrite !Z.mod_pow2_bits_low by lia. reflexivity.
  - rewrite (Z.mod_pow2_bits_high v 8 n) by lia. rewrite orb_false_r.
    destruct (Z.ltb_spec n 16) as [Hmid | Htop].
    + rewrite !Z.mod_pow2_bits_low by lia.
      rewrite Z.shiftr_spec by lia. f_equal. lia.
    + rewrite !Z.mod_pow2_bits_high by lia. reflexivity.
Qed.

(** *** Frame rules for steps *)

Section Frame.
Context {T : Type} (obs : s2n_connection -> T).

Lemma preserves_ret {A} (a : A) : preserves obs (ret a).
Proof. intros c. reflexivity. Qed.

Lemma preserves_bail {A} (e : s2n_error) : preserves obs (@bail A e).
Proof. intros c. reflexivity. Qed.

Lemma preserves_tell (k : call) : preserves obs (tell k).
Proof. intros c. reflexivity. Qed.

Lemma preserves_get_conn : preserves obs get_conn.
Proof. intros c. reflexivity. Qed.

Lemma preserves_modify (f : s2n_connection -> s2n_connection) :
  (forall c, obs (f c) = obs c) -> preserves obs (modify f).
Proof. intros Hf c. apply Hf. Qed.

Lemma preserves_on_stuffer {A} (p : place s2n_stuffer)
    (f : s2n_stuffer -> result A * s2n_stuffer) :
  (forall s c, obs (store p s c) = obs c) -> preserves obs (on_stuffer p f).
Proof.
  intros Hp c. unfold on_stuffer. destruct (f (load p c)). apply Hp.
Qed.

Lemma preserves_bind {A B} (m : step A) (k : A -> step B) :
  preserves obs m -> (forall a, preserves obs (k a)) -> preserves obs (bind m k).
Proof.
  intros Hm Hk c. unfold bind.
  specialize (Hm c). destruct (m c) as [[[a | e] c1] l1]; cbn in *.
  - specialize (Hk a c1). destruct (k a c1) as [[r c2] l2]. cbn in *. congruence.
  - exact Hm.
Qed.

Lemma preserves_with_conn (body : step unit) (c : s2n_connection) :
  preserves obs body ->
  option_map obs (conn_of (with_conn (Some c) body)) = Some (obs c).
Proof.
  intros Hbody. specialize (Hbody c). unfold with_conn, conn_of.
  destruct (body c) as [[r c'] l]. cbn in *. congruence.
Qed.
End Frame.

(** Break a step into its statements; what is left are the stores. *)
Ltac frame_step :=
  cbv beta zeta;
  lazymatch goal with
  | |- preserves _ (bind _ _) => apply preserves_bind; [|intros ?]
  | |- preserves _ (ret _) => apply preserves_ret
  | |- preserves _ (bail _) => apply preserves_bail
  | |- preserves _ (tell _) => apply preserves_tell
  | |- preserves _ get_conn => apply preserves_get_conn
  | |- preserves _ (modify _) => apply preserves_modify; intros ?
  | |- preserves _ (on_stuffer _ _) => apply preserves_on_stuffer; intros ? ?
  | |- preserves _ (POSIX_ENSURE_REF ?x) => destruct x; cbn [POSIX_ENSURE_REF]
  | |- preserves _ (match ?x with _ => _ end) => destruct x
  end.

Ltac frame := repeat frame_step.

(** *** Transcript isolation *)

Lemma live_transcript_set_hash_workspace (w : s2n_hash_state) (c : s2n_connection) :
  live_transcript (set_hash_workspace w c) = live_transcript c.
Proof.
  unfold live_transcript, set_hash_workspace. cbn.
  destruct (hashes (handshake c)); reflexivity.
Qed.

Lemma running_hash_live_transcript (alg : s2n_hash_algorithm) (c c' : s2n_connection) :
  live_transcript c' = live_transcript c -> running_hash alg c' = running_hash alg c.
Proof.
  unfold live_transcript, running_hash.
  destruct (hashes (handshake c')), (hashes (handshake c)); cbn; congruence.
Qed.

Lemma recv_body_preserves_live_transcript :
  preserves live_transcript
    (s2n_client_cert_verify_recv_body S2N_TLS12 default_scheme_for validate_offered
       pkey_verify hash_still_required).
Proof.
  unfold s2n_client_cert_verify_recv_body. unfold_collaborators.
  frame; cbn [store hashes_hash_workspace handshake_io
                handshake_params_client_cert_sig_scheme
                handshake_params_client_public_key];
    auto using live_transcript_set_hash_workspace.
Qed.

Lemma send_complete_preserves_live_transcript (signature : s2n_blob) :
  preserves live_transcript (send_complete signature).
Proof.
  unfold s2n_client_cert_verify_send_complete. unfold_collaborators.
  frame; reflexivity.
Qed.

Lemma send_body_preserves_live_transcript :
  preserves live_transcript
    (s2n_client_cert_verify_send_body S2N_TLS12 default_scheme_for pkey_sign
       hash_still_required).
Proof.
  unfold s2n_client_cert_verify_send_body. unfold_collaborators.
  frame; try apply send_complete_preserves_live_transcript;
    cbn [store hashes_hash_workspace handshake_io
           handshake_params_client_cert_sig_scheme];
    auto using live_transcript_set_hash_workspace.
Qed.

Lemma resume_preserves_live_transcript (outcome : option (list byte)) :
  preserves live_transcript
    (s2n_async_pkey_op_apply outcome send_complete).
Proof.
  unfold_collaborators.
  frame; try apply send_complete_preserves_live_transcript; reflexivity.
Qed.

(** C2: a verify (receive path) or a sign (send path, started at once or
    completed on resume) leaves every running transcript hash state of
    the connection, and so the one of the chosen scheme's algorithm,
    identical to its value before the call, whatever the outcome: the
    primitives are handed the workspace copy only. *)
Theorem C2_running_transcript_untouched (c : s2n_connection)
    (outcome : option (list byte)) (alg : s2n_hash_algorithm) :
  option_map live_transcript (conn_of (recv (Some c))) = Some (live_transcript c)
  /\ option_map live_transcript (conn_of (send (Some c))) = Some (live_transcript c)
  /\ option_map live_transcript (conn_of (resume outcome (Some c)))
     = Some (live_transcript c)
  /\ option_map (running_hash alg) (conn_of (recv (Some c)))
     = Some (running_hash alg c)
  /\ option_map (running_hash alg) (conn_of (send (Some c)))
     = Some (running_hash alg c)
  /\ option_map (running_hash alg) (conn_of (resume outcome (Some c)))
     = Some (running_hash alg c).
Proof.
  pose proof (preserves_with_conn live_transcript _ c
                recv_body_preserves_live_transcript) as Hrecv.
  pose proof (preserves_with_conn live_transcript _ c
                send_body_preserves_live_transcript) as Hsend.
  pose proof (preserves_with_conn live_transcript _ c
                (resume_preserves_live_transcript outcome)) as Hresume.
  unfold s2n_client_cert_verify_recv, s2n_client_cert_verify_send,
    s2n_client_cert_verify_send_resume.
  repeat split; try assumption.
  - destruct (conn_of (with_conn (Some c) _)) as [c'|]; [|discriminate].
    cbn in *. f_equal. apply running_hash_live_transcript. congruence.
  - clear Hrecv. destruct (conn_of (with_conn (Some c) _)) as [c'|]; [|discriminate].
    cbn in *. f_equal. apply running_hash_live_transcript. congruence.
  - clear Hrecv Hsend.
    destruct (conn_of (with_conn (Some c) _)) as [c'|]; [|discriminate].
    cbn in *. f_equal. apply running_hash_live_transcript. congruence.
Qed.

(** *** Null checks *)

(** C10: a call of the receive or the send path with a null connection,
    or with a connection whose [handshake.hashes] is null, returns an
    error at once: the connection (handshake buffer included) is left as
    it was and no collaborator has been called. *)
Theorem C10_null_checks_come_first (conn : option s2n_connection) :
  conn = None \/ (exists c, conn = Some c /\ hashes (handshake c) = None) ->
  recv conn = (Err NullReference, conn, [])
  /\ send conn = (Err NullReference, conn, []).
Proof.
  intros [-> | (c & -> & Hnull)].
  - split; reflexivity.
  - split; run; congruence.
Qed.

(** *** Negotiation *)

(** C4: at TLS 1.2 or later, a scheme identifier that is not in the set
    offered/accepted for the connection makes the receive path return a
    negotiation error right after the identifier has been read: the read
    cursor has moved past these two bytes only (no signature length, no
    signature bytes), nothing else of the connection has changed, and the
    only collaborator called is the validation (no snapshot, no
    verification, no minimization). *)
Theorem C4_unoffered_scheme_rejected (c : s2n_connection) (b0 b1 : byte)
    (rest : list byte) :
  hashes (handshake c) <> None ->
  S2N_TLS12 <= actual_protocol_version c ->
  unread (io (handshake c)) = b0 :: b1 :: rest ->
  validate_offered (uint16_of b0 b1) (set_io (skip_read 2 (io (handshake c))) c)
  = None ->
  recv (Some c)
  = (Err NegotiationError, Some (set_io (skip_read 2 (io (handshake c))) c),
     [Call_get_and_validate_negotiated_signature_scheme]).
Proof.
  intros Hhashes Hversion Hunread Hrejected.
  unfold_steps.
  destruct (hashes (handshake c)); [|congruence].
  destruct (Z.ltb_spec (actual_protocol_version c) S2N_TLS12); [lia|].
  rewrite (read_uint16_ok _ _ _ _ Hunread).
  unfold_steps. rewrite Hrejected. reflexivity.
Qed.

(** *** Parsing the signature *)

Local Abbreviation recv_body :=
  (s2n_client_cert_verify_recv_body S2N_TLS12 default_scheme_for validate_offered
     pkey_verify hash_still_required).

Lemma recv_body_signature_read (c : s2n_connection) (scheme_bytes : list byte)
    (l0 l1 : byte) (rest : list byte) :
  hashes (handshake c) <> None ->
  length scheme_bytes
  = (if actual_protocol_version c <? S2N_TLS12 then 0%nat else 2%nat) ->
  unread (io (handshake c)) = scheme_bytes ++ l0 :: l1 :: rest ->
  let n := uint16_of l0 l1 in
  let r := fst (fst (recv_body c)) in
  let c' := snd (fst (recv_body c)) in
  let sigs := verified_signatures (snd (recv_body c)) in
  (Z.of_nat (length rest) < n ->
   is_ok r = false /\ sigs = []
   /\ (bytes_read c c' <= length scheme_bytes + 2)%nat)
  /\ (sigs = []
      \/ sigs = [mk_blob (firstn (Z.to_nat n) rest) n]
         /\ n <= Z.of_nat (length rest)
         /\ bytes_read c c' = (length scheme_bytes + 2 + Z.to_nat n)%nat)
  /\ (is_ok r = true -> sigs <> []).
Proof.
  intros Hhashes Hlen Hunread n.
  pose proof (uint16_of_range l0 l1) as Hn. fold n in Hn.
  unfold bytes_read. unfold_steps. simpl_conn.
  destruct (hashes (handshake c)) as [hs|]; [|congruence].
  destruct (actual_protocol_version c <? S2N_TLS12).
  - (* legacy: the buffer starts with the length *)
    destruct scheme_bytes; [|discriminate]. cbn [app length Nat.add] in *.
    destruct (default_scheme_for _ _); unfold_steps; simpl_conn.
    2: { cbn. repeat split; auto; try lia; discriminate. }
    rewrite (read_uint16_ok _ _ _ _ Hunread). fold n. unfold_steps; simpl_conn.
    rewrite raw_read_spec, unread_skip_read, Hunread. cbn [skipn].
    destruct (Z.leb_spec n (Z.of_nat (length rest))); unfold_steps; simpl_conn.
    2: { cbn. repeat split; auto; try lia; discriminate. }
    run; cbn; repeat split; auto; try lia; try discriminate; try (right; repeat split; lia).
  - (* TLS 1.2 and later: the scheme identifier comes first *)
    destruct scheme_bytes as [|s0 [|s1 [|]]]; try discriminate.
    cbn [app length Nat.add] in *.
    rewrite (read_uint16_ok _ _ _ _ Hunread). unfold_steps; simpl_conn.
    destruct (validate_offered _ _); unfold_steps; simpl_conn.
    2: { cbn. repeat split; auto; try lia; discriminate. }
    assert (Hunread2 : unread (skip_read 2 (io (handshake c))) = l0 :: l1 :: rest)
      by (rewrite unread_skip_read, Hunread; reflexivity).
    rewrite (read_uint16_ok _ _ _ _ Hunread2). fold n. unfold_steps; simpl_conn.
    rewrite raw_read_spec, unread_skip_read, Hunread2. cbn [skipn].
    destruct (Z.leb_spec n (Z.of_nat (length rest))); unfold_steps; simpl_conn.
    2: { cbn. repeat split; auto; try lia; discriminate. }
    run; cbn; repeat split; auto; try lia; try discriminate; try (right; repeat split; lia).
Qed.

(** C5: let the unread input be the scheme bytes (none before TLS 1.2,
    two from TLS 1.2 on), a 2-byte big-endian length [n] and [rest].
    [n] is at most 65535.  If fewer than [n] bytes remain, the receive
    path fails, hands no signature to the verification and has consumed
    nothing beyond the length field.  A signature that reaches the
    verification is the blob of exactly the next [n] bytes, with
    [size = n] equal to the number of bytes obtained, and exactly these
    [n] bytes have been consumed after the length field; a successful
    call has parsed such a blob. *)
Theorem C5_signature_read_is_bounded (c : s2n_connection) (scheme_bytes : list byte)
    (l0 l1 : byte) (rest : list byte) :
  hashes (handshake c) <> None ->
  length scheme_bytes
  = (if actual_protocol_version c <? S2N_TLS12 then 0%nat else 2%nat) ->
  unread (io (handshake c)) = scheme_bytes ++ l0 :: l1 :: rest ->
  exists c',
    conn_of (recv (Some c)) = Some c'
    /\ 0 <= uint16_of l0 l1 <= 65535
    /\ (Z.of_nat (length rest) < uint16_of l0 l1 ->
        is_ok (res_of (recv (Some c))) = false
        /\ verified_signatures (calls_of (recv (Some c))) = []
        /\ (bytes_read c c' <= length scheme_bytes + 2)%nat)
    /\ (forall s, In s (verified_signatures (calls_of (recv (Some c)))) ->
        0 <= size s <= 65535
        /\ size s = uint16_of l0 l1
        /\ data s = firstn (Z.to_nat (size s)) rest
        /\ Z.of_nat (length (data s)) = size s
        /\ bytes_read c c' = (length scheme_bytes + 2 + Z.to_nat (size s))%nat)
    /\ (is_ok (res_of (recv (Some c))) = true ->
        exists s, verified_signatures (calls_of (recv (Some c))) = [s]).
Proof.
  intros Hhashes Hlen Hunread.
  pose proof (recv_body_signature_read c scheme_bytes l0 l1 rest Hhashes Hlen Hunread)
    as (Htruncated & Hsigs & Hok).
  pose proof (uint16_of_range l0 l1) as Hn.
  unfold s2n_client_cert_verify_recv, with_conn, res_of, conn_of, calls_of.
  destruct (recv_body c) as [[r c'] l]. cbn [fst snd] in *.
  exists c'. split; [reflexivity|]. split; [exact Hn|].
  split; [exact Htruncated|]. split.
  - intros s Hs.
    destruct Hsigs as [Hnil | (Hone & Hle & Hread)].
    + rewrite Hnil in Hs. contradiction.
    + rewrite Hone in Hs. destruct Hs as [<- | []]. cbn [size data].
      rewrite length_firstn. repeat split; lia.
  - intros H. destruct Hsigs as [Hnil | (Hone & _)]; [|eauto].
    exfalso. apply (Hok H Hnil).
Qed.

(** *** Verification and minimization *)

(** C3: on the receive path hash-algorithm minimization is invoked
    exactly when [s2n_pkey_verify] has succeeded; when the verification
    fails the function returns an error and minimization is not invoked.
    At most one verification is attempted. *)
Theorem C3_minimize_iff_verified (conn : option s2n_connection) :
  existsb is_minimize (calls_of (recv conn))
  = existsb (is_verify_with true) (calls_of (recv conn))
  /\ (existsb (is_verify_with false) (calls_of (recv conn)) = true ->
      is_ok (res_of (recv conn)) = false
      /\ existsb is_minimize (calls_of (recv conn)) = false)
  /\ (length (filter is_verify (calls_of (recv conn))) <= 1)%nat.
Proof.
  split; [|split].
  - run; reflexivity.
  - run; cbn; intros Hfail; try discriminate; split; reflexivity.
  - run; cbn; lia.
Qed.

(** *** What the send path appends to the buffer *)

Local Abbreviation send_body :=
  (s2n_client_cert_verify_send_body S2N_TLS12 default_scheme_for pkey_sign
     hash_still_required).

(** Facts from the writes met during a symbolic execution. *)
Ltac write_facts :=
  unfold s2n_stuffer_write_uint16, s2n_stuffer_write in *;
  repeat match goal with
    | H : s2n_stuffer_write_bytes _ _ = (_, _) |- _ =>
        apply write_bytes_inv in H;
        destruct H as [(? & ? & ?) | (? & ?)]; try discriminate; subst
    end;
  repeat match goal with
    | H : Err _ = Err _ |- _ => injection H as ->
    end.

(** The bytes appended, from the facts the writes have left. *)
Ltac appended :=
  apply bytes_appended_app; simpl_conn;
  repeat match goal with
    | H : written _ = _ |- _ => rewrite H; clear H
    end;
  rewrite <- ?app_assoc, ?app_nil_r; reflexivity.

Lemma write_bytes_exact (bs : list byte) (s : s2n_stuffer) (r : result unit)
    (s' : s2n_stuffer) :
  s2n_stuffer_write_bytes bs s = (r, s') ->
  (r = Ok tt /\ written s' = written s ++ bs /\ growable s' = growable s
   /\ (growable s = false ->
       capacity s' = capacity s
       /\ (length (written s) + length bs <= capacity s)%nat))
  \/ (r = Err BufferFull /\ s' = s /\ growable s = false
      /\ (capacity s < length (written s) + length bs)%nat).
Proof.
  unfold s2n_stuffer_write_bytes.
  destruct (Nat.leb_spec (length (written s) + length bs) (capacity s));
    [|destruct (growable s) eqn:Hg]; intros [= <- <-]; cbn.
  - left. repeat split; auto.
  - left. repeat split; auto; discriminate.
  - right. repeat split; auto.
Qed.

(** Exact facts from the writes met during a symbolic execution. *)
Ltac write_exact :=
  unfold s2n_stuffer_write_uint16, s2n_stuffer_write in *;
  repeat match goal with
    | H : s2n_stuffer_write_bytes _ _ = (_, _) |- _ =>
        apply write_bytes_exact in H;
        destruct H as [(? & ? & ? & ?) | (? & ? & ? & ?)]; try discriminate; subst
    end;
  repeat match goal with
    | H : Err _ = Err _ |- _ => injection H as ->
    end.

(** What the exact facts say about lengths and the capacity. *)
Ltac capacity_facts :=
  repeat match goal with
    | H : (_ <=? _)%nat = true |- _ => apply Nat.leb_le in H
    | H : (_ <=? _)%nat = false |- _ => apply Nat.leb_gt in H
    end;
  repeat match goal with
    | H : growable ?s = false -> _ |- _ =>
        let Hg := fresh "Hg" in
        assert (Hg : growable s = false) by congruence;
        specialize (H Hg); destruct H
    end;
  repeat match goal with
    | H : written ?s' = written ?s ++ ?bs |- _ =>
        lazymatch goal with
        | _ : length (written s') = _ |- _ => fail
        | _ =>
            let HL := fresh "Hlength" in
            pose proof (f_equal (@length byte) H) as HL;
            rewrite length_app in HL
        end
    end;
  cbn [length app uint16_bytes] in *.

(** A signing request found in the call log of a symbolic execution. *)
Ltac sign_in_log :=
  cbn [In]; intros;
  repeat match goal with
    | H : _ \/ _ |- _ => destruct H
    | H : False |- _ => contradiction
    end;
  try discriminate;
  repeat match goal with
    | H : Call_async_pkey_sign _ _ = Call_async_pkey_sign _ _ |- _ =>
        injection H as <- <-
    end.

Lemma send_body_left_in_buffer (c : s2n_connection) :
  hashes (handshake c) <> None ->
  async_state (handshake c) = NotStarted ->
  send_left_in_buffer pkey_sign
    (if actual_protocol_version c <? S2N_TLS12 then []
     else uint16_bytes (iana_value (chosen_scheme c)))
    c (snd (fst (send_body c))) (fst (fst (send_body c))) (snd (send_body c)).
Proof.
  intros Hhashes Hstate. unfold send_left_in_buffer, chosen_scheme. cbv zeta.
  split; [|split].
  - run; try congruence; cbn; intros Hreached; try discriminate.
    all: write_exact; simpl_conn; try discriminate.
    all: split; [appended | reflexivity].
  - run; try congruence; cbn; intros Hreached Hsigned; try discriminate.
    all: write_exact; simpl_conn; try discriminate.
    all: split; [appended | reflexivity].
  - intros a d. run; try congruence; sign_in_log; write_exact; simpl_conn;
      try discriminate; try congruence.
    all: repeat match goal with
           | H1 : ?x = (Some _, _), H2 : ?x = (Some _, _) |- _ =>
               rewrite H1 in H2; injection H2 as <- <-
           end.
    all: rewrite ?Nat2Z.id, ?firstn_all in *.
    all: capacity_facts.
    all: try solve [repeat split; first [reflexivity | congruence | appended | lia]].
    all: exfalso; lia.
Qed.

(** *** The same with the callee of line 99 left open *)

Local Abbreviation send_with :=
  (s2n_client_cert_verify_send_with S2N_TLS12 default_scheme_for pkey_sign).
Local Abbreviation send_body_with :=
  (s2n_client_cert_verify_send_body_with S2N_TLS12 default_scheme_for pkey_sign).
Local Abbreviation send_complete_with := s2n_client_cert_verify_send_complete_with.

(** With the pruning of the retained algorithms for the callee, these are
    the functions of the source. *)
Lemma send_with_pruning (conn : option s2n_connection) :
  send_with
    (c <- get_conn ;;
     modify (set_required_hash_algs
               (filter (hash_still_required c) (required_hash_algs (handshake c)))))
    conn
  = send conn.
Proof. reflexivity. Qed.

Lemma send_complete_with_pruning (signature : s2n_blob) :
  send_complete_with
    (c <- get_conn ;;
     modify (set_required_hash_algs
               (filter (hash_still_required c) (required_hash_algs (handshake c)))))
    signature
  = send_complete signature.
Proof. reflexivity. Qed.

(** The pruning is one of the callees the assumption admits. *)
Lemma pruning_leaves_buffer_alone :
  leaves_buffer_alone
    (c <- get_conn ;;
     modify (set_required_hash_algs
               (filter (hash_still_required c) (required_hash_algs (handshake c))))).
Proof. intros c. split; reflexivity. Qed.

(** The facts assumed of the callee, at the calls met during a symbolic
    execution. *)
Ltac callee_facts Hcallee :=
  repeat match goal with
    | H : ?u ?x = (_, _, _) |- _ =>
        lazymatch type of Hcallee with
        | leaves_buffer_alone u =>
            let Hb := fresh "Hbuffer" in
            let Hl := fresh "Hquiet" in
            destruct (Hcallee x) as [Hb Hl];
            rewrite H in Hb, Hl; cbn [fst snd] in Hb, Hl; clear H; subst
        end
    end.

(** The bytes appended when the run has gone through the callee. *)
Ltac appended_through_callee :=
  apply bytes_appended_app;
  repeat match goal with
    | H : io (handshake _) = _ |- _ => rewrite H; clear H
    end;
  simpl_conn;
  repeat match goal with
    | H : written _ = _ |- _ => rewrite H; clear H
    end;
  rewrite <- ?app_assoc, ?app_nil_r; reflexivity.

Lemma send_body_with_left_in_buffer (update : step unit) (c : s2n_connection) :
  leaves_buffer_alone update ->
  hashes (handshake c) <> None ->
  async_state (handshake c) = NotStarted ->
  send_left_in_buffer pkey_sign
    (if actual_protocol_version c <? S2N_TLS12 then []
     else uint16_bytes (iana_value (chosen_scheme c)))
    c (snd (fst (send_body_with update c))) (fst (fst (send_body_with update c)))
    (snd (send_body_with update c)).
Proof.
  intros Hcallee Hhashes Hstate. unfold send_left_in_buffer, chosen_scheme. cbv zeta.
  split; [|split].
  - run; try congruence; callee_facts Hcallee; cbn; intros Hreached; try discriminate.
    all: write_exact; simpl_conn; try discriminate.
    all: split; [appended | reflexivity].
  - run; try congruence; callee_facts Hcallee; cbn; intros Hreached Hsigned;
      try discriminate.
    all: write_exact; simpl_conn; try discriminate.
    all: split; [appended | reflexivity].
  - intros a d. run; try congruence; callee_facts Hcallee; sign_in_log; write_exact;
      simpl_conn; try discriminate; try congruence.
    all: repeat match goal with
           | H1 : ?x = (Some _, _), H2 : ?x = (Some _, _) |- _ =>
               rewrite H1 in H2; injection H2 as <- <-
           end.
    all: rewrite ?Nat2Z.id, ?firstn_all in *.
    all: capacity_facts.
    all: try solve [repeat split;
                    first [reflexivity | congruence | appended
                          | appended_through_callee | lia]].
    all: exfalso; lia.
Qed.

Lemma send_complete_with_left_in_buffer (update : step unit) (signature : s2n_blob)
    (c : s2n_connection) :
  leaves_buffer_alone update ->
  completion_left_in_buffer signature c
    (snd (fst (send_complete_with update signature c)))
    (fst (fst (send_complete_with update signature c)))
    (snd (send_complete_with update signature c)).
Proof.
  intros Hcallee. unfold completion_left_in_buffer. cbv zeta.
  run; callee_facts Hcallee; write_exact; simpl_conn; try discriminate.
  all: capacity_facts.
  all: try solve [repeat split;
                  first [reflexivity | congruence | appended
                        | appended_through_callee | lia]].
  all: exfalso; lia.
Qed.

(** The earlier content of the buffer is a prefix of the later one. *)
Lemma send_body_with_extends (update : step unit) (c : s2n_connection) :
  leaves_buffer_alone update ->
  written (io (handshake (snd (fst (send_body_with update c)))))
  = written (io (handshake c)) ++ bytes_appended c (snd (fst (send_body_with update c))).
Proof.
  intros Hcallee.
  enough (exists w, written (io (handshake (snd (fst (send_body_with update c)))))
                    = written (io (handshake c)) ++ w) as (w & Hw).
  { now rewrite (bytes_appended_app _ _ _ Hw). }
  run; callee_facts Hcallee; write_exact; simpl_conn;
    repeat match goal with
      | H : io (handshake _) = _ |- _ => rewrite H; clear H
      end;
    simpl_conn;
    repeat match goal with
      | H : written _ = _ |- _ => rewrite H; clear H
      end;
    rewrite <- ?app_assoc.
  all: first [ now (eexists; reflexivity)
             | now (exists []; rewrite app_nil_r) ].
Qed.

(** A run that has invoked the callee returns what the callee returns. *)
Lemma send_body_with_returns_callee (update : step unit) (c : s2n_connection) :
  leaves_buffer_alone update ->
  existsb is_minimize (snd (send_body_with update c)) = true ->
  exists c2, fst (send_body_with update c) = fst (update c2).
Proof.
  intros Hcallee.
  run; cbn; intros Hreached; try discriminate.
  all: match goal with
       | H : ?u ?x = (_, _, _) |- _ =>
           lazymatch type of Hcallee with
           | leaves_buffer_alone u =>
               exists x; destruct (Hcallee x) as [_ Hquiet];
               rewrite H in *; cbn [fst snd] in *; subst; reflexivity
           end
       end.
Qed.

Lemma send_complete_with_returns_callee (update : step unit) (signature : s2n_blob)
    (c : s2n_connection) :
  leaves_buffer_alone update ->
  existsb is_minimize (snd (send_complete_with update signature c)) = true ->
  exists c2, fst (send_complete_with update signature c) = fst (update c2).
Proof.
  intros Hcallee.
  run; cbn; intros Hreached; try discriminate.
  all: match goal with
       | H : ?u ?x = (_, _, _) |- _ =>
           lazymatch type of Hcallee with
           | leaves_buffer_alone u =>
               exists x; destruct (Hcallee x) as [_ Hquiet];
               rewrite H in *; cbn [fst snd] in *; subst; reflexivity
           end
       end.
Qed.

(** A call that returns at the null check or at the guard appends
    nothing. *)
Lemma send_body_with_guarded (update : step unit) (c : s2n_connection) :
  hashes (handshake c) = None \/ async_state (handshake c) <> NotStarted ->
  bytes_appended c (snd (fst (send_body_with update c))) = [].
Proof.
  intros Hguard.
  enough (written (io (handshake (snd (fst (send_body_with update c)))))
          = written (io (handshake c)) ++ []) as Hw.
  { exact (bytes_appended_app _ _ _ Hw). }
  rewrite app_nil_r.
  destruct Hguard as [Hnull | Hstarted].
  - run; congruence.
  - destruct (hashes (handshake c)) eqn:Hhashes;
      destruct (async_state (handshake c)) eqn:Hstate; try congruence;
      run; try congruence; reflexivity.
Qed.

(** *** Legacy default versus scheme on the wire *)

(** Facts from the reads met during a symbolic execution. *)
Ltac read_facts :=
  repeat match goal with
    | H : s2n_stuffer_read_uint16 _ = (_, _) |- _ =>
        apply read_uint16_cursor in H; destruct H as [? ?]
    | H : s2n_stuffer_raw_read _ _ = (_, _) |- _ =>
        apply raw_read_cursor in H; destruct H as [? ?]
    end.

Lemma recv_body_legacy (c : s2n_connection) :
  hashes (handshake c) <> None ->
  actual_protocol_version c < S2N_TLS12 ->
  existsb is_validate (snd (recv_body c)) = false
  /\ match default_scheme_for (actual_protocol_version c)
             (client_cert_pkey_type (handshake_params c)) with
     | Some s => chosen_scheme (snd (fst (recv_body c))) = s
     | None => recv_body c
               = (Err NegotiationError, c, [Call_choose_default_sig_scheme S2N_CLIENT])
     end.
Proof.
  intros Hhashes Hversion. apply Z.ltb_lt in Hversion. unfold chosen_scheme.
  split; run; try congruence; reflexivity.
Qed.

Lemma send_body_legacy (c : s2n_connection) :
  hashes (handshake c) <> None ->
  async_state (handshake c) = NotStarted ->
  actual_protocol_version c < S2N_TLS12 ->
  match default_scheme_for (actual_protocol_version c)
          (client_cert_pkey_type (handshake_params c)) with
  | Some s => chosen_scheme (snd (fst (send_body c))) = s
  | None => send_body c
            = (Err NegotiationError, c, [Call_choose_default_sig_scheme S2N_CLIENT])
  end.
Proof.
  intros Hhashes Hstate Hversion. apply Z.ltb_lt in Hversion. unfold chosen_scheme.
  run; try congruence; reflexivity.
Qed.

Lemma recv_body_negotiated (c : s2n_connection) (s0 s1 : byte) (rest : list byte) :
  hashes (handshake c) <> None ->
  S2N_TLS12 <= actual_protocol_version c ->
  unread (io (handshake c)) = s0 :: s1 :: rest ->
  existsb is_choose_default (snd (recv_body c)) = false
  /\ existsb is_validate (snd (recv_body c)) = true
  /\ match validate_offered (uint16_of s0 s1)
             (set_io (skip_read 2 (io (handshake c))) c) with
     | Some s => chosen_scheme (snd (fst (recv_body c))) = s
                 /\ (2 <= bytes_read c (snd (fst (recv_body c))))%nat
     | None => fst (fst (recv_body c)) = Err NegotiationError
     end.
Proof.
  intros Hhashes Hversion Hunread. apply Z.ltb_ge in Hversion.
  pose proof (read_uint16_ok _ _ _ _ Hunread) as Hread.
  unfold chosen_scheme, bytes_read.
  repeat split; run; try congruence; try reflexivity.
  all: read_facts; cbn in *; try split; try reflexivity; lia.
Qed.

Lemma send_body_negotiated (c : s2n_connection) :
  hashes (handshake c) <> None ->
  async_state (handshake c) = NotStarted ->
  S2N_TLS12 <= actual_protocol_version c ->
  existsb is_choose_default (snd (send_body c)) = false
  /\ chosen_scheme (snd (fst (send_body c))) = chosen_scheme c
  /\ (send_body c = (Err BufferFull, c, [])
      \/ exists w, written (io (handshake (snd (fst (send_body c)))))
                   = written (io (handshake c))
                       ++ uint16_bytes (iana_value (chosen_scheme c)) ++ w).
Proof.
  intros Hhashes Hstate Hversion. apply Z.ltb_ge in Hversion.
  unfold chosen_scheme.
  repeat split; run; try congruence; try reflexivity.
  all: write_facts; simpl_conn;
    repeat match goal with
      | H : written _ = _ |- _ => rewrite H; clear H
      end;
    rewrite <- ?app_assoc.
  all: try solve [right; eexists; reflexivity].
  rewrite set_io_same. left. reflexivity.
Qed.

Lemma recv_body_no_default (c : s2n_connection) :
  S2N_TLS12 <= actual_protocol_version c ->
  existsb is_choose_default (snd (recv_body c)) = false.
Proof.
  intros Hversion. apply Z.ltb_ge in Hversion. run; try congruence; reflexivity.
Qed.

(** C6: below TLS 1.2 both paths take the default scheme of the client
    role, a function of version and key type (and fail with a negotiation
    error, touching nothing, if there is none); the receive path never
    reads or validates a scheme identifier (the first two unread bytes are
    the signature length) and the send path writes no scheme bytes: what
    it has appended is, by the step it got to, nothing (up to and including
    a failed or pending signing, or a length that did not fit), the 2-byte
    length of the signature the key primitive returned (the signature did
    not fit), or that length and the signature, which is what a successful
    call has appended.  From TLS 1.2 on no default is chosen: the receive
    path reads the 2-byte identifier and validates it (rejecting, or
    adopting the scheme it denotes), and the send path keeps the client's
    scheme and writes its 2-byte identifier first (or fails on a full
    buffer, writing nothing). *)
Theorem C6_default_below_TLS12_scheme_id_from_TLS12 (c : s2n_connection) :
  hashes (handshake c) <> None ->
  async_state (handshake c) = NotStarted ->
  exists cr cs,
    conn_of (recv (Some c)) = Some cr
    /\ conn_of (send (Some c)) = Some cs
    /\ (actual_protocol_version c < S2N_TLS12 ->
        existsb is_validate (calls_of (recv (Some c))) = false
        /\ (forall s,
              default_scheme_for (actual_protocol_version c)
                (client_cert_pkey_type (handshake_params c)) = Some s ->
              chosen_scheme cr = s /\ chosen_scheme cs = s)
        /\ (default_scheme_for (actual_protocol_version c)
              (client_cert_pkey_type (handshake_params c)) = None ->
            recv (Some c)
            = (Err NegotiationError, Some c, [Call_choose_default_sig_scheme S2N_CLIENT])
            /\ send (Some c)
               = (Err NegotiationError, Some c,
                  [Call_choose_default_sig_scheme S2N_CLIENT]))
        /\ (forall l0 l1 rest sg,
              unread (io (handshake c)) = l0 :: l1 :: rest ->
              In sg (verified_signatures (calls_of (recv (Some c)))) ->
              sg = mk_blob (firstn (Z.to_nat (uint16_of l0 l1)) rest) (uint16_of l0 l1))
        /\ send_left_in_buffer pkey_sign [] c cs
             (res_of (send (Some c))) (calls_of (send (Some c)))
        /\ (is_ok (res_of (send (Some c))) = true ->
            exists a d sig d',
              In (Call_async_pkey_sign a d) (calls_of (send (Some c)))
              /\ pkey_sign (private_key (handshake_params c)) a d = (Some sig, d')
              /\ bytes_appended c cs
                 = uint16_bytes (Z.of_nat (length sig) mod 2 ^ 16) ++ sig))
    /\ (S2N_TLS12 <= actual_protocol_version c ->
        existsb is_choose_default (calls_of (recv (Some c))) = false
        /\ existsb is_choose_default (calls_of (send (Some c))) = false
        /\ (forall s0 s1 rest,
              unread (io (handshake c)) = s0 :: s1 :: rest ->
              existsb is_validate (calls_of (recv (Some c))) = true
              /\ (validate_offered (uint16_of s0 s1)
                    (set_io (skip_read 2 (io (handshake c))) c) = None ->
                  res_of (recv (Some c)) = Err NegotiationError)
              /\ (forall s,
                    validate_offered (uint16_of s0 s1)
                      (set_io (skip_read 2 (io (handshake c))) c) = Some s ->
                    chosen_scheme cr = s /\ (2 <= bytes_read c cr)%nat))
        /\ chosen_scheme cs = chosen_scheme c
        /\ (send (Some c) = (Err BufferFull, Some c, [])
            \/ exists w,
                 bytes_appended c cs
                 = uint16_bytes (iana_value (chosen_scheme c)) ++ w)).
Proof.
  intros Hhashes Hstate.
  pose proof (send_body_left_in_buffer c Hhashes Hstate) as Hleft.
  pose proof (recv_body_legacy c Hhashes) as Hrl.
  pose proof (send_body_legacy c Hhashes Hstate) as Hsl.
  pose proof (recv_body_signature_read c []) as Hsig.
  pose proof (recv_body_no_default c) as Hrd.
  pose proof (recv_body_negotiated c) as Hrn.
  pose proof (send_body_negotiated c Hhashes Hstate) as Hsn.
  unfold s2n_client_cert_verify_recv, s2n_client_cert_verify_send, with_conn,
    res_of, conn_of, calls_of.
  destruct (recv_body c) as [[rr cr] lr]. destruct (send_body c) as [[rs cs] ls].
  cbn [fst snd] in *.
  exists cr, cs. split; [reflexivity|]. split; [reflexivity|]. split.
  - (* below TLS 1.2 *)
    intros Hlegacy. specialize (Hrl Hlegacy) as [Hnoval Hrl]. specialize (Hsl Hlegacy).
    assert (Hltb : (actual_protocol_version c <? S2N_TLS12) = true)
      by now apply Z.ltb_lt.
    rewrite Hltb in Hleft.
    split; [exact Hnoval|]. split; [|split; [|split; [|split]]].
    + intros s Hs. rewrite Hs in Hrl, Hsl. split; assumption.
    + intros Hnone. rewrite Hnone in Hrl, Hsl.
      injection Hrl as -> -> ->. injection Hsl as -> -> ->. split; reflexivity.
    + intros l0 l1 rest sg Hunread Hin.
      specialize (Hsig l0 l1 rest Hhashes). rewrite Hltb in Hsig.
      destruct (Hsig eq_refl Hunread) as (_ & [Hnil | (Hone & _)] & _).
      * rewrite Hnil in Hin. contradiction.
      * rewrite Hone in Hin. destruct Hin as [<- | []]. reflexivity.
    + exact Hleft.
    + intros Hok. destruct Hleft as (Hbefore & Hsnapshot & Hsigned).
      destruct (existsb is_get_hash_state ls) eqn:Hreached;
        [|destruct (Hbefore eq_refl) as [_ Hfailed]; congruence].
      destruct (existsb is_sign ls) eqn:Hrequested;
        [|destruct (Hsnapshot eq_refl eq_refl) as [_ ->]; discriminate Hok].
      apply existsb_exists in Hrequested as (k & Hin & Hk).
      destruct k as [| | | |? ? ? ? ?|a d|]; try discriminate Hk.
      specialize (Hsigned a d Hin).
      destruct (async_pkey_cb c); [destruct Hsigned as [_ ->]; discriminate Hok|].
      destruct (pkey_sign (private_key (handshake_params c)) a d) as [[sig|] d'] eqn:Hsign;
        [|destruct Hsigned as [_ ->]; discriminate Hok].
      destruct (existsb is_minimize ls);
        [|destruct Hsigned as [-> _]; discriminate Hok].
      exists a, d, sig, d'. auto.
  - (* TLS 1.2 and later *)
    intros Hmodern. specialize (Hrd Hmodern).
    specialize (Hsn Hmodern) as (Hsd & Hkeep & Hwrote).
    split; [exact Hrd|]. split; [exact Hsd|]. split; [|split; [exact Hkeep|]].
    + intros s0 s1 rest Hunread.
      destruct (Hrn s0 s1 rest Hhashes Hmodern Hunread) as (_ & Hval & Hscheme).
      split; [exact Hval|]. split.
      * intros Hnone. rewrite Hnone in Hscheme. exact Hscheme.
      * intros s Hs. rewrite Hs in Hscheme. exact Hscheme.
    + destruct Hwrote as [Hfull | (w' & Hw')].
      * left. injection Hfull as -> -> ->. reflexivity.
      * right. exists w'. apply bytes_appended_app. exact Hw'.
Qed.

(** *** Errors of the send path and the buffer *)

Lemma send_complete_appended (signature : s2n_blob) (c : s2n_connection) :
  let r := fst (fst (send_complete signature c)) in
  let c' := snd (fst (send_complete signature c)) in
  let len := uint16_bytes (size signature mod 2 ^ 16) in
  (is_ok r = false /\ (bytes_appended c c' = [] \/ bytes_appended c c' = len))
  \/ (r = Ok tt
      /\ bytes_appended c c'
         = len ++ firstn (Z.to_nat (size signature)) (data signature)).
Proof.
  run; write_facts; simpl_conn.
  all: first
    [ right; split; [reflexivity | appended]
    | left; split; [reflexivity | first [left; appended | right; appended]] ].
Qed.

(** C8, as amended: the send path rolls nothing back, whatever the callee
    of line 99 does short of touching the buffer.  The earlier content of
    the buffer is untouched and every write made before the failing step
    stays.  A call that returns at a null check or at the guard has
    appended nothing.  Otherwise what is left goes by the step the call got
    to: nothing if the snapshot was not reached (no legacy default, or the
    scheme identifier did not fit); exactly the scheme bytes (the 2-byte
    identifier from TLS 1.2 on, nothing below) after a failed snapshot, a
    failed signing or a pending operation, and after a failed length write;
    the scheme bytes and the 2-byte length after a failed signature write;
    and the whole message once the minimization has been invoked, when the
    call returns what the minimization returns, an error included.  The
    completion run on its own leaves, in the same way, nothing, the length,
    or the whole length-prefixed signature. *)
Theorem C8_failed_send_keeps_its_writes (update : step unit) (c : s2n_connection)
    (signature : s2n_blob) :
  leaves_buffer_alone update ->
  exists cs,
    conn_of (send_with update (Some c)) = Some cs
    /\ written (io (handshake cs)) = written (io (handshake c)) ++ bytes_appended c cs
    /\ (hashes (handshake c) = None \/ async_state (handshake c) <> NotStarted ->
        bytes_appended c cs = [])
    /\ (hashes (handshake c) <> None ->
        async_state (handshake c) = NotStarted ->
        send_left_in_buffer pkey_sign
          (if actual_protocol_version c <? S2N_TLS12 then []
           else uint16_bytes (iana_value (chosen_scheme c)))
          c cs (res_of (send_with update (Some c))) (calls_of (send_with update (Some c))))
    /\ (existsb is_minimize (calls_of (send_with update (Some c))) = true ->
        exists c2,
          res_of (send_with update (Some c)) = fst (fst (update c2))
          /\ cs = snd (fst (update c2)))
    /\ completion_left_in_buffer signature c
         (snd (fst (send_complete_with update signature c)))
         (fst (fst (send_complete_with update signature c)))
         (snd (send_complete_with update signature c))
    /\ (existsb is_minimize (snd (send_complete_with update signature c)) = true ->
        exists c2, fst (send_complete_with update signature c) = fst (update c2)).
Proof.
  intros Hcallee.
  pose proof (send_body_with_extends update c Hcallee) as Hextends.
  pose proof (send_body_with_guarded update c) as Hguarded.
  pose proof (send_body_with_left_in_buffer update c Hcallee) as Hleft.
  pose proof (send_body_with_returns_callee update c Hcallee) as Hreturns.
  pose proof (send_complete_with_left_in_buffer update signature c Hcallee) as Hcomplete.
  pose proof (send_complete_with_returns_callee update signature c Hcallee) as Hcallee'.
  unfold s2n_client_cert_verify_send_with, with_conn, res_of, conn_of, calls_of.
  destruct (send_body_with update c) as [[r cs] l]. cbn [fst snd] in *.
  exists cs. repeat (split; [first [reflexivity | assumption]|]).
  split; [|split; assumption].
  intros Hreached. destruct (Hreturns Hreached) as (c2 & Hc2).
  exists c2. rewrite <- Hc2. split; reflexivity.
Qed.


(** *** Where the scheme and the snapshot live *)

(** Membership in the call log of a symbolic execution. *)
Ltac in_calls :=
  cbn [In]; intros;
  repeat match goal with
    | H : _ \/ _ |- _ => destruct H
    | H : False |- _ => contradiction
    end;
  try discriminate;
  repeat match goal with
    | H : Call_pkey_verify _ _ _ _ _ = Call_pkey_verify _ _ _ _ _ |- _ =>
        injection H as <- <- <- <- <-
    | H : Call_async_pkey_sign _ _ = Call_async_pkey_sign _ _ |- _ =>
        injection H as <- <-
    end.

Lemma recv_body_retains (c : s2n_connection) :
  let cr := snd (fst (recv_body c)) in
  (forall k a d sg ok,
      In (Call_pkey_verify k a d sg ok) (snd (recv_body c)) ->
      running_hash (hash_alg (chosen_scheme cr)) c = Some d
      /\ a = sig_alg (chosen_scheme cr)
      /\ workspace cr = snd (pkey_verify k a d sg))
  /\ (is_ok (fst (fst (recv_body c))) = true ->
      existsb is_verify (snd (recv_body c)) = true).
Proof.
  unfold chosen_scheme, workspace. split.
  - run; in_calls; simpl_conn;
      repeat match goal with
        | H : pkey_verify _ _ _ _ = _ |- _ => rewrite H; clear H
        end;
      repeat split; try reflexivity; try assumption.
  - run; cbn; intros; try discriminate; reflexivity.
Qed.

Lemma send_body_retains (c : s2n_connection) :
  let cs := snd (fst (send_body c)) in
  forall a d,
    In (Call_async_pkey_sign a d) (snd (send_body c)) ->
    running_hash (hash_alg (chosen_scheme cs)) c = Some d
    /\ a = sig_alg (chosen_scheme cs)
    /\ workspace cs
       = (if async_pkey_cb c then d
          else snd (pkey_sign (private_key (handshake_params c)) a d)).
Proof.
  unfold chosen_scheme, workspace.
  run; in_calls; simpl_conn;
    repeat match goal with
      | H : pkey_sign _ _ _ = _ |- _ => rewrite H; clear H
      end;
    repeat split; try reflexivity; try assumption.
Qed.

(** C9, as amended: the scheme and the snapshot are connection state and
    outlive the call.  A receive call that has reached the verification
    returns with [conn->handshake_params.client_cert_sig_scheme] holding
    the scheme it chose and [conn->handshake.hashes->hash_workspace]
    holding its snapshot of that scheme's running hash, as the
    verification left it; a successful call has reached the verification.
    A send call that has started the signing returns with the same two
    fields holding the scheme and the snapshot (untouched while the
    operation is pending, as the signing left it otherwise). *)
Theorem C9_scheme_and_snapshot_stay_in_connection (c : s2n_connection) :
  exists cr cs,
    conn_of (recv (Some c)) = Some cr
    /\ conn_of (send (Some c)) = Some cs
    /\ (forall k a d sg ok,
          In (Call_pkey_verify k a d sg ok) (calls_of (recv (Some c))) ->
          running_hash (hash_alg (chosen_scheme cr)) c = Some d
          /\ a = sig_alg (chosen_scheme cr)
          /\ workspace cr = snd (pkey_verify k a d sg))
    /\ (is_ok (res_of (recv (Some c))) = true ->
        existsb is_verify (calls_of (recv (Some c))) = true)
    /\ (forall a d,
          In (Call_async_pkey_sign a d) (calls_of (send (Some c))) ->
          running_hash (hash_alg (chosen_scheme cs)) c = Some d
          /\ a = sig_alg (chosen_scheme cs)
          /\ workspace cs
             = (if async_pkey_cb c then d
                else snd (pkey_sign (private_key (handshake_params c)) a d))).
Proof.
  pose proof (recv_body_retains c) as [Hverify Hreached].
  pose proof (send_body_retains c) as Hsign.
  unfold s2n_client_cert_verify_recv, s2n_client_cert_verify_send, with_conn,
    res_of, conn_of, calls_of.
  destruct (recv_body c) as [[rr cr] lr]. destruct (send_body c) as [[rs cs] ls].
  cbn [fst snd] in *.
  exists cr, cs. split; [reflexivity|]. split; [reflexivity|].
  split; [exact Hverify|]. split; [exact Hreached | exact Hsign].
Qed.


(** *** Round trip *)

Lemma send_body_sync_succeeds (client : s2n_connection)
    (scheme : s2n_signature_scheme) (sig : list byte) (d d' : s2n_hash_state) :
  hashes (handshake client) <> None ->
  async_state (handshake client) = NotStarted ->
  async_pkey_cb client = false ->
  growable (io (handshake client)) = true ->
  (if actual_protocol_version client <? S2N_TLS12
   then default_scheme_for (actual_protocol_version client)
          (client_cert_pkey_type (handshake_params client)) = Some scheme
   else chosen_scheme client = scheme) ->
  running_hash (hash_alg scheme) client = Some d ->
  pkey_sign (private_key (handshake_params client)) (sig_alg scheme) d = (Some sig, d') ->
  Z.of_nat (length sig) < 2 ^ 16 ->
  fst (fst (send_body client)) = Ok tt
  /\ bytes_appended client (snd (fst (send_body client)))
     = wire_message (actual_protocol_version client <? S2N_TLS12) scheme sig.
Proof.
  intros Hhashes Hstate Hsync Hgrow Hscheme Hrunning Hsign Hlen.
  unfold chosen_scheme, running_hash, wire_message in *.
  destruct (hashes (handshake client)) as [hs|] eqn:Hhs; [clear Hhashes|congruence].
  destruct (actual_protocol_version client <? S2N_TLS12) eqn:Hversion;
    [|subst scheme].
  all: split; run; try congruence.
  all: unfold s2n_stuffer_write_uint16, s2n_stuffer_write in *; simpl_conn.
  all: repeat match goal with
         | Hg : growable ?s = true, H : s2n_stuffer_write_bytes _ ?s = (_, _) |- _ =>
             apply (write_bytes_growable _ _ _ _ Hg) in H;
             destruct H as (? & ? & ?); try discriminate
         end.
  all: try reflexivity.
  all: rewrite ?Nat2Z.id, ?firstn_all, ?(Z.mod_small (Z.of_nat (length sig))) in *
         by lia.
  all: appended.
Qed.

Lemma recv_body_succeeds (client server : s2n_connection)
    (scheme : s2n_signature_scheme) (sig : list byte) (d d' : s2n_hash_state) :
  matching_peer pkey_verify pkey_sign client server ->
  scheme_in_use S2N_TLS12 default_scheme_for validate_offered client server scheme ->
  running_hash (hash_alg scheme) client = Some d ->
  pkey_sign (private_key (handshake_params client)) (sig_alg scheme) d = (Some sig, d') ->
  Z.of_nat (length sig) < 2 ^ 16 ->
  unread (io (handshake server))
  = wire_message (actual_protocol_version client <? S2N_TLS12) scheme sig ->
  fst (fst (recv_body server)) = Ok tt
  /\ existsb (is_verify_with true) (snd (recv_body server)) = true.
Proof.
  intros (Hversion & Hkeytype & Hhashes & Htranscript & Hkeys) Hscheme Hrunning
    Hsign Hlen Hunread.
  unfold scheme_in_use, wire_message in *.
  specialize (Hkeys _ _ _ _ Hsign).
  rewrite <- Htranscript in Hrunning. unfold running_hash in Hrunning.
  rewrite <- Hversion, <- ?Hkeytype in *.
  assert (Hlength : uint16_of (byte.of_Z (Z.shiftr (Z.of_nat (length sig)) 8))
                      (byte.of_Z (Z.of_nat (length sig)))
                    = Z.of_nat (length sig))
    by (apply uint16_roundtrip; lia).
  destruct (hashes (handshake server)) as [hs|] eqn:Hhs; [clear Hhashes|congruence].
  destruct (pkey_verify _ _ _ _) as [ok dv] eqn:Hverify. cbn [fst] in Hkeys. subst ok.
  destruct (actual_protocol_version server <? S2N_TLS12) eqn:Hlegacy.
  - (* below TLS 1.2: length, signature *)
    cbn [app uint16_bytes] in Hunread.
    pose proof (read_uint16_ok _ _ _ _ Hunread) as Hread. rewrite Hlength in Hread.
    assert (Hraw : s2n_stuffer_raw_read (Z.of_nat (length sig))
                     (skip_read 2 (io (handshake server)))
                   = (Ok (Some sig),
                      skip_read (length sig) (skip_read 2 (io (handshake server))))).
    { rewrite raw_read_spec, unread_skip_read, Hunread. cbn [skipn].
      rewrite Z.leb_refl, Nat2Z.id, firstn_all. reflexivity. }
    split; run; congruence || reflexivity.
  - (* TLS 1.2 and later: scheme identifier, length, signature *)
    destruct Hscheme as (Hchosen & Hiana & Hoffered).
    cbn [app uint16_bytes] in Hunread.
    pose proof (read_uint16_ok _ _ _ _ Hunread) as Hread1.
    rewrite (uint16_roundtrip _ Hiana) in Hread1.
    pose proof (Hoffered (skip_read 2 (io (handshake server)))) as Hvalid.
    assert (Hunread2 : unread (skip_read 2 (io (handshake server)))
                       = byte.of_Z (Z.shiftr (Z.of_nat (length sig)) 8)
                           :: byte.of_Z (Z.of_nat (length sig)) :: sig)
      by (rewrite unread_skip_read, Hunread; reflexivity).
    pose proof (read_uint16_ok _ _ _ _ Hunread2) as Hread2. rewrite Hlength in Hread2.
    assert (Hraw : s2n_stuffer_raw_read (Z.of_nat (length sig))
                     (skip_read 2 (skip_read 2 (io (handshake server))))
                   = (Ok (Some sig),
                      skip_read (length sig)
                        (skip_read 2 (skip_read 2 (io (handshake server)))))).
    { rewrite raw_read_spec, unread_skip_read, Hunread2. cbn [skipn].
      rewrite Z.leb_refl, Nat2Z.id, firstn_all. reflexivity. }
    split; run; congruence || reflexivity.
Qed.



Local Abbreviation resume_body :=
  (fun outcome => s2n_async_pkey_op_apply outcome send_complete).

Lemma send_body_async_then_resume (client : s2n_connection)
    (scheme : s2n_signature_scheme) (sig : list byte) (d : s2n_hash_state) :
  hashes (handshake client) <> None ->
  async_state (handshake client) = NotStarted ->
  async_pkey_cb client = true ->
  growable (io (handshake client)) = true ->
  (if actual_protocol_version client <? S2N_TLS12
   then default_scheme_for (actual_protocol_version client)
          (client_cert_pkey_type (handshake_params client)) = Some scheme
   else chosen_scheme client = scheme) ->
  running_hash (hash_alg scheme) client = Some d ->
  Z.of_nat (length sig) < 2 ^ 16 ->
  let pending := snd (fst (send_body client)) in
  fst (fst (send_body client)) = Err AsyncPending
  /\ filter is_sign (snd (send_body client) ++ snd (resume_body (Some sig) pending))
     = [Call_async_pkey_sign (sig_alg scheme) d]
  /\ fst (fst (resume_body (Some sig) pending)) = Ok tt
  /\ bytes_appended client (snd (fst (resume_body (Some sig) pending)))
     = wire_message (actual_protocol_version client <? S2N_TLS12) scheme sig.
Proof.
  intros Hhashes Hstate Hasync Hgrow Hscheme Hrunning Hlen.
  unfold chosen_scheme, running_hash, wire_message in *.
  destruct (hashes (handshake client)) as [hs|] eqn:Hhs; [clear Hhashes|congruence].
  destruct (actual_protocol_version client <? S2N_TLS12) eqn:Hversion;
    [|subst scheme].
  all: repeat split; run; try congruence.
  all: unfold s2n_stuffer_write_uint16, s2n_stuffer_write in *; simpl_conn.
  all: repeat match goal with
         | Hg : growable ?s = true, H : s2n_stuffer_write_bytes _ ?s = (_, _) |- _ =>
             apply (write_bytes_growable _ _ _ _ Hg) in H;
             destruct H as (? & ? & ?); try discriminate
         end.
  all: try reflexivity.
  all: rewrite ?Nat2Z.id, ?firstn_all, ?(Z.mod_small (Z.of_nat (length sig))) in *
         by lia.
  all: appended.
Qed.

(** C1: let a client be ready to send (its scheme, a running hash for
    the scheme's algorithm, a growable buffer, a signing key that signs
    with a signature of fewer than 2^16 bytes) and let a server be the
    matching peer (same version, transcript and key type, the public half
    of a valid key pair, the scheme offered/accepted).  Then the send
    path, at once with a synchronous backend or through the completion
    with an asynchronous one, succeeds and appends the wire message
    (scheme identifier from TLS 1.2 on, 2-byte length, signature), and the
    receive path given these bytes succeeds, its verification included. *)
Theorem C1_sent_message_verifies (client server : s2n_connection)
    (scheme : s2n_signature_scheme) (sig : list byte) (d d' : s2n_hash_state) :
  hashes (handshake client) <> None ->
  async_state (handshake client) = NotStarted ->
  growable (io (handshake client)) = true ->
  matching_peer pkey_verify pkey_sign client server ->
  scheme_in_use S2N_TLS12 default_scheme_for validate_offered client server scheme ->
  running_hash (hash_alg scheme) client = Some d ->
  pkey_sign (private_key (handshake_params client)) (sig_alg scheme) d = (Some sig, d') ->
  Z.of_nat (length sig) < 2 ^ 16 ->
  unread (io (handshake server))
  = wire_message (actual_protocol_version client <? S2N_TLS12) scheme sig ->
  (exists sent,
      (if async_pkey_cb client
       then res_of (send (Some client)) = Err AsyncPending
            /\ res_of (resume (Some sig) (conn_of (send (Some client)))) = Ok tt
            /\ conn_of (resume (Some sig) (conn_of (send (Some client)))) = Some sent
       else res_of (send (Some client)) = Ok tt
            /\ conn_of (send (Some client)) = Some sent)
      /\ bytes_appended client sent = unread (io (handshake server)))
  /\ res_of (recv (Some server)) = Ok tt
  /\ existsb (is_verify_with true) (calls_of (recv (Some server))) = true.
Proof.
  intros Hhashes Hstate Hgrow Hpeer Hscheme Hrunning Hsign Hlen Hunread.
  pose proof (recv_body_succeeds client server scheme sig d d'
                Hpeer Hscheme Hrunning Hsign Hlen Hunread) as [Hok Hverified].
  assert (Hscheme' :
            if actual_protocol_version client <? S2N_TLS12
            then default_scheme_for (actual_protocol_version client)
                   (client_cert_pkey_type (handshake_params client)) = Some scheme
            else chosen_scheme client = scheme).
  { unfold scheme_in_use in Hscheme.
    destruct (actual_protocol_version client <? S2N_TLS12); tauto. }
  rewrite Hunread. split; [|split].
  - destruct (async_pkey_cb client) eqn:Hbackend.
    + pose proof (send_body_async_then_resume client scheme sig d Hhashes Hstate
                    Hbackend Hgrow Hscheme' Hrunning Hlen)
        as (Hpending & _ & Hresumed & Happended).
      unfold s2n_client_cert_verify_send, s2n_client_cert_verify_send_resume,
        with_conn, res_of, conn_of.
      destruct (send_body client) as [[r1 c1] l1]. cbn [fst snd] in *.
      destruct (s2n_async_pkey_op_apply _ _ c1) as [[r2 c2] l2]. cbn [fst snd] in *.
      exists c2. auto.
    + pose proof (send_body_sync_succeeds client scheme sig d d' Hhashes Hstate
                    Hbackend Hgrow Hscheme' Hrunning Hsign Hlen)
        as (Hsent & Happended).
      unfold s2n_client_cert_verify_send, with_conn, res_of, conn_of.
      destruct (send_body client) as [[r1 c1] l1]. cbn [fst snd] in *.
      exists c1. auto.
  - unfold s2n_client_cert_verify_recv, with_conn, res_of.
    destruct (recv_body server) as [[r c] l]. exact Hok.
  - unfold s2n_client_cert_verify_recv, with_conn, calls_of.
    destruct (recv_body server) as [[r c] l]. exact Hverified.
Qed.


(** *** Suspension and re-invocation *)

Lemma hashes_set_hash_workspace (w : s2n_hash_state) (c : s2n_connection) :
  hashes (handshake c) <> None ->
  hashes (handshake (set_hash_workspace w c)) <> None.
Proof.
  intros H. unfold set_hash_workspace. cbn.
  destruct (hashes (handshake c)); [discriminate | congruence].
Qed.

(** C7: while a signing operation is pending or complete, a re-invocation
    of the send path stops at the guard.  Pending: the caller is told to
    retry, and the connection is exactly as it was (no negotiation, no
    scheme-id write, no snapshot) with no collaborator called (no second
    signing request).  Completed: the call succeeds and only consumes the
    handle.  A send that starts an asynchronous operation submits exactly
    one request and leaves the handle pending; applying the backend's
    result makes it complete without any signing request. *)
Theorem C7_reinvocation_does_not_resubmit (c : s2n_connection) :
  hashes (handshake c) <> None ->
  (async_state (handshake c) = Pending ->
   send (Some c) = (Err AsyncPending, Some c, []))
  /\ (async_state (handshake c) = Completed ->
      send (Some c) = (Ok tt, Some (set_async_state NotStarted c), []))
  /\ (async_state (handshake c) = NotStarted -> async_pkey_cb c = true ->
      existsb is_sign (calls_of (send (Some c))) = true ->
      res_of (send (Some c)) = Err AsyncPending
      /\ length (filter is_sign (calls_of (send (Some c)))) = 1%nat
      /\ exists c1, conn_of (send (Some c)) = Some c1
                    /\ async_state (handshake c1) = Pending
                    /\ hashes (handshake c1) <> None)
  /\ (async_state (handshake c) = Pending ->
      forall sig : list byte,
        is_ok (res_of (resume (Some sig) (Some c))) = true ->
        existsb is_sign (calls_of (resume (Some sig) (Some c))) = false
        /\ exists c2, conn_of (resume (Some sig) (Some c)) = Some c2
                      /\ async_state (handshake c2) = Completed
                      /\ hashes (handshake c2) <> None).
Proof.
  intros Hhashes. split; [|split; [|split]].
  - intros Hstate. run; congruence.
  - intros Hstate. run; congruence.
  - intros Hstate Hasync. run; cbn; intros Hsigned; try congruence.
    all: repeat split; try reflexivity.
    all: eexists; repeat split; cbn;
      try apply hashes_set_hash_workspace; cbn; congruence.
  - intros Hstate sig. run; cbn; intros Hresumed; try congruence.
    all: split; [reflexivity|].
    all: eexists; repeat split; cbn; congruence.
Qed.

(** *** Footprints *)

Lemma read_uint16_shape (s : s2n_stuffer) (r : result Z) (s' : s2n_stuffer) :
  s2n_stuffer_read_uint16 s = (r, s') ->
  (is_ok r = false /\ s' = s) \/ (is_ok r = true /\ s' = skip_read 2 s).
Proof.
  unfold s2n_stuffer_read_uint16.
  destruct (unread s) as [|b0 [|b1 tl]]; intros [= <- <-]; auto.
Qed.

Lemma raw_read_shape (n : Z) (s : s2n_stuffer) (r : result (option (list byte)))
    (s' : s2n_stuffer) :
  s2n_stuffer_raw_read n s = (r, s') ->
  (r = Ok None /\ s' = s)
  \/ (exists l, r = Ok (Some l) /\ s' = skip_read (Z.to_nat n) s).
Proof.
  unfold s2n_stuffer_raw_read. destruct (_ <=? _); intros [= <- <-]; eauto.
Qed.

Lemma write_bytes_shape (bs : list byte) (s : s2n_stuffer) (r : result unit)
    (s' : s2n_stuffer) :
  s2n_stuffer_write_bytes bs s = (r, s') ->
  read_cursor s' = read_cursor s /\ growable s' = growable s
  /\ exists w, written s' = written s ++ w.
Proof.
  unfold s2n_stuffer_write_bytes.
  destruct (_ <=? _)%nat; [|destruct (growable s) eqn:Hg]; intros [= <- <-]; cbn;
    repeat split; eauto.
  exists []. now rewrite app_nil_r.
Qed.

(** Where the reads met during a symbolic execution have left the cursor. *)
Ltac read_shapes :=
  repeat match goal with
    | H : s2n_stuffer_read_uint16 _ = (_, _) |- _ =>
        apply read_uint16_shape in H; destruct H as [(_ & ->) | (_ & ->)]
    | H : s2n_stuffer_raw_read _ _ = (_, _) |- _ =>
        apply raw_read_shape in H; destruct H as [(_ & ->) | (? & _ & ->)]
    end.

Lemma recv_body_footprint (c : s2n_connection) :
  outside_recv (snd (fst (recv_body c))) = outside_recv c
  /\ (read_cursor (io (handshake c))
      <= read_cursor (io (handshake (snd (fst (recv_body c))))))%nat.
Proof.
  unfold outside_recv, live_transcript.
  split; run; read_shapes; cbn; try lia.
  all: repeat match goal with
         | H : hashes (handshake _) = _ |- _ => rewrite H
         end; reflexivity.
Qed.

(** X1: whatever its outcome, the receive path leaves the content, the
    capacity and the growability of the handshake buffer as they were (it
    only moves the read cursor, and only forward), and touches neither the
    operation handle, the version, the keys and key types, the backend nor
    the running transcript. *)
Theorem X1_recv_footprint (c : s2n_connection) :
  exists c',
    conn_of (recv (Some c)) = Some c'
    /\ outside_recv c' = outside_recv c
    /\ (read_cursor (io (handshake c)) <= read_cursor (io (handshake c')))%nat.
Proof.
  pose proof (recv_body_footprint c) as [Hsame Hforward].
  unfold s2n_client_cert_verify_recv, with_conn, conn_of.
  destruct (recv_body c) as [[r c'] l]. cbn [fst snd] in *.
  exists c'. auto.
Qed.

(** Where the writes met during a symbolic execution have left the buffer. *)
Ltac write_shapes :=
  unfold s2n_stuffer_write_uint16, s2n_stuffer_write in *;
  repeat match goal with
    | H : s2n_stuffer_write_bytes _ _ = (_, _) |- _ =>
        apply write_bytes_shape in H; destruct H as (? & ? & ? & ?)
    end.

Ltac footprint_send :=
  run; write_shapes; simpl_conn; cbn;
  repeat match goal with
    | H : hashes (handshake _) = _ |- _ => rewrite H
    | H : read_cursor _ = _ |- _ => rewrite H; clear H
    | H : growable _ = _ |- _ => rewrite H; clear H
    | H : written _ = _ |- _ => rewrite H; clear H
    end;
  rewrite <- ?app_assoc;
  first [ reflexivity | congruence | eexists; reflexivity
        | exists []; now rewrite app_nil_r ].

Lemma send_complete_footprint (signature : s2n_blob) (c : s2n_connection) :
  outside_send (snd (fst (send_complete signature c))) = outside_send c
  /\ exists w, written (io (handshake (snd (fst (send_complete signature c)))))
               = written (io (handshake c)) ++ w.
Proof.
  unfold outside_send, live_transcript. split; footprint_send.
Qed.

Lemma send_body_footprint (c : s2n_connection) :
  outside_send (snd (fst (send_body c))) = outside_send c
  /\ exists w, written (io (handshake (snd (fst (send_body c)))))
               = written (io (handshake c)) ++ w.
Proof.
  unfold outside_send, live_transcript. split; footprint_send.
Qed.

Lemma resume_body_footprint (outcome : option (list byte)) (c : s2n_connection) :
  outside_send (snd (fst (resume_body outcome c))) = outside_send c
  /\ exists w, written (io (handshake (snd (fst (resume_body outcome c)))))
               = written (io (handshake c)) ++ w.
Proof.
  unfold outside_send, live_transcript. split; footprint_send.
Qed.

(** X2: whatever its outcome, the send path, at its first call or on
    resume, only appends to the handshake buffer: the bytes already written
    stay in front, the read cursor and the growability are as before, and
    the version, the keys and key types, the backend and the running
    transcript are untouched. *)
Theorem X2_send_footprint (c : s2n_connection) (outcome : option (list byte)) :
  (exists cs w,
      conn_of (send (Some c)) = Some cs
      /\ outside_send cs = outside_send c
      /\ written (io (handshake cs)) = written (io (handshake c)) ++ w)
  /\ (exists cr w,
         conn_of (resume outcome (Some c)) = Some cr
         /\ outside_send cr = outside_send c
         /\ written (io (handshake cr)) = written (io (handshake c)) ++ w).
Proof.
  pose proof (send_body_footprint c) as (Hsend & ws & Hws).
  pose proof (resume_body_footprint outcome c) as (Hresume & wr & Hwr).
  unfold s2n_client_cert_verify_send, s2n_client_cert_verify_send_resume,
    with_conn, conn_of.
  destruct (send_body c) as [[r1 cs] l1].
  destruct (s2n_async_pkey_op_apply _ _ c) as [[r2 cr] l2]. cbn [fst snd] in *.
  split; [exists cs, ws | exists cr, wr]; auto.
Qed.


(** *** The order of the calls *)

Lemma recv_body_success_calls (c : s2n_connection) :
  is_ok (fst (fst (recv_body c))) = true ->
  exists d sg,
    running_hash (hash_alg (chosen_scheme (snd (fst (recv_body c))))) c = Some d
    /\ snd (recv_body c)
       = [if actual_protocol_version c <? S2N_TLS12
          then Call_choose_default_sig_scheme S2N_CLIENT
          else Call_get_and_validate_negotiated_signature_scheme;
          Call_handshake_get_hash_state
            (hash_alg (chosen_scheme (snd (fst (recv_body c)))));
          Call_hash_copy d;
          Call_pkey_verify (client_public_key (handshake_params c))
            (sig_alg (chosen_scheme (snd (fst (recv_body c))))) d sg true;
          Call_conn_update_required_handshake_hashes].
Proof.
  unfold chosen_scheme.
  run; cbn [is_ok]; intros Hok; try discriminate.
  all: do 2 eexists; split; [eassumption | reflexivity].
Qed.

(** X3: a successful receive call has called its collaborators exactly
    once each and in this order: the negotiation (the default below TLS 1.2,
    the validation of the wire identifier from TLS 1.2 on), the retrieval of
    the running hash of the chosen scheme's algorithm, the copy of that
    state into the workspace, the verification with the connection's client
    public key, the chosen scheme's signature algorithm and that copy, and
    last the minimization. *)
Theorem X3_recv_success_call_order (c : s2n_connection) :
  is_ok (res_of (recv (Some c))) = true ->
  exists c' d sg,
    conn_of (recv (Some c)) = Some c'
    /\ running_hash (hash_alg (chosen_scheme c')) c = Some d
    /\ calls_of (recv (Some c))
       = [if actual_protocol_version c <? S2N_TLS12
          then Call_choose_default_sig_scheme S2N_CLIENT
          else Call_get_and_validate_negotiated_signature_scheme;
          Call_handshake_get_hash_state (hash_alg (chosen_scheme c'));
          Call_hash_copy d;
          Call_pkey_verify (client_public_key (handshake_params c))
            (sig_alg (chosen_scheme c')) d sg true;
          Call_conn_update_required_handshake_hashes].
Proof.
  pose proof (recv_body_success_calls c) as Hcalls.
  unfold s2n_client_cert_verify_recv, with_conn, res_of, conn_of, calls_of.
  destruct (recv_body c) as [[r c'] l]. cbn [fst snd] in *.
  intros Hok. destruct (Hcalls Hok) as (d & sg & Hd & Hl).
  exists c', d, sg. auto.
Qed.

(** *** A missing running hash *)

Lemma recv_body_without_running_hash (c : s2n_connection) :
  running_hash (hash_alg (chosen_scheme (snd (fst (recv_body c))))) c = None ->
  is_ok (fst (fst (recv_body c))) = false
  /\ existsb is_verify (snd (recv_body c)) = false
  /\ existsb is_minimize (snd (recv_body c)) = false
  /\ workspace (snd (fst (recv_body c))) = workspace c.
Proof.
  unfold chosen_scheme, workspace.
  run; cbn; intros Hnone; try discriminate; try congruence.
  all: repeat split; reflexivity.
Qed.

(** X4: if the connection has no running hash for the algorithm of the
    scheme the receive call ends up with, the call fails without having
    attempted a verification or a minimization, and the workspace is as it
    was before the call. *)
Theorem X4_recv_without_running_hash (c c' : s2n_connection) :
  conn_of (recv (Some c)) = Some c' ->
  running_hash (hash_alg (chosen_scheme c')) c = None ->
  is_ok (res_of (recv (Some c))) = false
  /\ existsb is_verify (calls_of (recv (Some c))) = false
  /\ existsb is_minimize (calls_of (recv (Some c))) = false
  /\ workspace c' = workspace c.
Proof.
  pose proof (recv_body_without_running_hash c) as Hbody.
  unfold s2n_client_cert_verify_recv, with_conn, res_of, conn_of, calls_of.
  destruct (recv_body c) as [[r c1] l]. cbn [fst snd] in *.
  intros [= <-] Hnone. auto.
Qed.

Lemma send_body_without_running_hash (c : s2n_connection) :
  async_state (handshake c) = NotStarted ->
  running_hash (hash_alg (chosen_scheme (snd (fst (send_body c))))) c = None ->
  is_ok (fst (fst (send_body c))) = false
  /\ existsb is_sign (snd (send_body c)) = false
  /\ existsb is_minimize (snd (send_body c)) = false
  /\ async_state (handshake (snd (fst (send_body c)))) = NotStarted
  /\ workspace (snd (fst (send_body c))) = workspace c.
Proof.
  intros Hstate. unfold chosen_scheme, workspace.
  run; cbn; intros Hnone; try discriminate; try congruence.
  all: repeat split; reflexivity || congruence.
Qed.

(** X5: if nothing has been started and the connection has no running
    hash for the algorithm of the scheme the send call ends up with, the
    call fails without a signing request and without a minimization; the
    operation handle is still not started and the workspace is as it was
    before the call. *)
Theorem X5_send_without_running_hash (c cs : s2n_connection) :
  async_state (handshake c) = NotStarted ->
  conn_of (send (Some c)) = Some cs ->
  running_hash (hash_alg (chosen_scheme cs)) c = None ->
  is_ok (res_of (send (Some c))) = false
  /\ existsb is_sign (calls_of (send (Some c))) = false
  /\ existsb is_minimize (calls_of (send (Some c))) = false
  /\ async_state (handshake cs) = NotStarted
  /\ workspace cs = workspace c.
Proof.
  intros Hstate.
  pose proof (send_body_without_running_hash c Hstate) as Hbody.
  unfold s2n_client_cert_verify_send, with_conn, res_of, conn_of, calls_of.
  destruct (send_body c) as [[r c1] l]. cbn [fst snd] in *.
  intros [= <-] Hnone. auto.
Qed.

(** *** The length field of the completion *)

(** X6: when the completion succeeds for a signature blob whose size is
    the number of its bytes, it has appended a 2-byte length field followed
    by all the signature bytes, and the length field holds the low 16 bits
    of the size: it equals the number of signature bytes that follow
    exactly when the size is below 2^16. *)
Theorem X6_length_field_is_size_mod_2_16 (signature : s2n_blob) (c : s2n_connection) :
  size signature = Z.of_nat (length (data signature)) ->
  is_ok (fst (fst (send_complete signature c))) = true ->
  exists b0 b1,
    bytes_appended c (snd (fst (send_complete signature c)))
    = b0 :: b1 :: data signature
    /\ uint16_of b0 b1 = size signature mod 2 ^ 16
    /\ (uint16_of b0 b1 = Z.of_nat (length (data signature))
        <-> size signature < 2 ^ 16).
Proof.
  intros Hsize Hok.
  destruct (send_complete_appended signature c) as [(Hfailed & _) | (_ & Happended)].
  { rewrite Hfailed in Hok. discriminate. }
  assert (Hlow : 0 <= size signature mod 2 ^ 16 < 2 ^ 16)
    by (apply Z.mod_pos_bound; lia).
  exists (byte.of_Z (Z.shiftr (size signature mod 2 ^ 16) 8)),
    (byte.of_Z (size signature mod 2 ^ 16)).
  rewrite (uint16_roundtrip _ Hlow). split; [|split; [reflexivity|]].
  - rewrite Happended, Hsize, Nat2Z.id, firstn_all. reflexivity.
  - rewrite <- Hsize. split; intros H.
    + rewrite <- H. lia.
    + apply Z.mod_small. lia.
Qed.

(** *** Minimization on the send path *)

Lemma send_body_minimizes_last (c : s2n_connection) :
  let scheme_bytes :=
    if actual_protocol_version c <? S2N_TLS12 then []
    else uint16_bytes (iana_value (chosen_scheme c)) in
  (length (filter is_sign (snd (send_body c))) <= 1)%nat
  /\ (length (filter is_minimize (snd (send_body c))) <= 1)%nat
  /\ (existsb is_minimize (snd (send_body c)) = true ->
      existsb is_sign (snd (send_body c)) = true
      /\ exists sig d d',
           pkey_sign (private_key (handshake_params c))
             (sig_alg (chosen_scheme (snd (fst (send_body c))))) d = (Some sig, d')
           /\ bytes_appended c (snd (fst (send_body c)))
              = scheme_bytes ++ uint16_bytes (Z.of_nat (length sig) mod 2 ^ 16) ++ sig)
  /\ (is_ok (fst (fst (send_body c))) = true ->
      async_state (handshake c) = NotStarted ->
      existsb is_minimize (snd (send_body c)) = true).
Proof.
  unfold chosen_scheme. cbv zeta. split; [|split; [|split]].
  - run; cbn; lia.
  - run; cbn; lia.
  - run; cbn; intros Hmin; try discriminate.
    all: split; [reflexivity|]; do 3 eexists; split; [eassumption|].
    all: write_facts; simpl_conn; rewrite ?Nat2Z.id, ?firstn_all in *; appended.
  - run; cbn; intros Hok Hstate; try discriminate; try congruence; reflexivity.
Qed.

(** X7: a send call makes at most one signing request and at most one
    minimization.  If the minimization has been invoked, the signature has
    been requested and the whole message is in the buffer: the scheme bytes
    (none below TLS 1.2, the 2-byte identifier from TLS 1.2 on), the 2-byte
    length and the signature the key primitive returned.  A call that
    succeeds from a handle not started has invoked the minimization. *)
Theorem X7_send_minimizes_after_the_whole_message (c : s2n_connection) :
  exists cs,
    conn_of (send (Some c)) = Some cs
    /\ (length (filter is_sign (calls_of (send (Some c)))) <= 1)%nat
    /\ (length (filter is_minimize (calls_of (send (Some c)))) <= 1)%nat
    /\ (existsb is_minimize (calls_of (send (Some c))) = true ->
        existsb is_sign (calls_of (send (Some c))) = true
        /\ exists sig d d',
             pkey_sign (private_key (handshake_params c))
               (sig_alg (chosen_scheme cs)) d = (Some sig, d')
             /\ bytes_appended c cs
                = (if actual_protocol_version c <? S2N_TLS12 then []
                   else uint16_bytes (iana_value (chosen_scheme c)))
                    ++ uint16_bytes (Z.of_nat (length sig) mod 2 ^ 16) ++ sig)
    /\ (is_ok (res_of (send (Some c))) = true ->
        async_state (handshake c) = NotStarted ->
        existsb is_minimize (calls_of (send (Some c))) = true).
Proof.
  pose proof (send_body_minimizes_last c) as Hbody. cbv zeta in Hbody.
  unfold s2n_client_cert_verify_send, with_conn, res_of, conn_of, calls_of.
  destruct (send_body c) as [[r cs] l]. cbn [fst snd] in *.
  exists cs. split; [reflexivity | exact Hbody].
Qed.

(** *** An asynchronous backend *)

Lemma send_body_async_defers (c : s2n_connection) :
  async_pkey_cb c = true ->
  async_state (handshake c) = NotStarted ->
  let scheme_bytes :=
    if actual_protocol_version c <? S2N_TLS12 then []
    else uint16_bytes (iana_value (chosen_scheme c)) in
  let cs := snd (fst (send_body c)) in
  is_ok (fst (fst (send_body c))) = false
  /\ existsb is_minimize (snd (send_body c)) = false
  /\ (bytes_appended c cs = [] \/ bytes_appended c cs = scheme_bytes)
  /\ (fst (fst (send_body c)) = Err AsyncPending ->
      bytes_appended c cs = scheme_bytes
      /\ async_state (handshake cs) = Pending
      /\ exists d,
           running_hash (hash_alg (chosen_scheme cs)) c = Some d
           /\ workspace cs = d
           /\ filter is_sign (snd (send_body c))
              = [Call_async_pkey_sign (sig_alg (chosen_scheme cs)) d]).
Proof.
  intros Hasync Hstate. unfold chosen_scheme, workspace. cbv zeta.
  split; [|split; [|split]].
  - run; try congruence; reflexivity.
  - run; try congruence; reflexivity.
  - run; try congruence; write_facts; simpl_conn.
    all: first [left; appended | right; appended].
  - run; try congruence; intros Hpending; try discriminate.
    all: write_facts; simpl_conn; try discriminate.
    all: split; [appended|]; split; [reflexivity|].
    all: eexists; split; [eassumption|]; split; reflexivity.
Qed.

(** X8: with an asynchronous backend and nothing started, a send call
    never succeeds and never invokes the minimization, and it has appended
    at most the scheme bytes: the length and the signature are left to the
    completion.  When it returns the retry signal it has appended exactly
    the scheme bytes, the handle is pending, the workspace holds the
    snapshot of the running hash of the chosen scheme's algorithm, and the
    one signing request carries that snapshot. *)
Theorem X8_async_send_defers_the_signature (c : s2n_connection) :
  async_pkey_cb c = true ->
  async_state (handshake c) = NotStarted ->
  exists cs,
    conn_of (send (Some c)) = Some cs
    /\ is_ok (res_of (send (Some c))) = false
    /\ existsb is_minimize (calls_of (send (Some c))) = false
    /\ (bytes_appended c cs = []
        \/ bytes_appended c cs
           = (if actual_protocol_version c <? S2N_TLS12 then []
              else uint16_bytes (iana_value (chosen_scheme c))))
    /\ (res_of (send (Some c)) = Err AsyncPending ->
        bytes_appended c cs
        = (if actual_protocol_version c <? S2N_TLS12 then []
           else uint16_bytes (iana_value (chosen_scheme c)))
        /\ async_state (handshake cs) = Pending
        /\ exists d,
             running_hash (hash_alg (chosen_scheme cs)) c = Some d
             /\ workspace cs = d
             /\ filter is_sign (calls_of (send (Some c)))
                = [Call_async_pkey_sign (sig_alg (chosen_scheme cs)) d]).
Proof.
  intros Hasync Hstate.
  pose proof (send_body_async_defers c Hasync Hstate) as Hbody. cbv zeta in Hbody.
  unfold s2n_client_cert_verify_send, with_conn, res_of, conn_of, calls_of.
  destruct (send_body c) as [[r cs] l]. cbn [fst snd] in *.
  exists cs. split; [reflexivity | exact Hbody].
Qed.

(** X9: the whole asynchronous exchange.  Let nothing be started, the
    backend be asynchronous, the buffer growable, the scheme be the one the
    send path uses and its algorithm have a running hash.  Then the first
    send call returns the retry signal; applying a signature of fewer than
    2^16 bytes succeeds; the next send call succeeds without calling any
    collaborator and leaves the handle not started.  Over the three calls
    the buffer has received exactly the wire message (scheme identifier from
    TLS 1.2 on, length, signature), one signing request has been made, over
    the snapshot, and the minimization has run once. *)
Theorem X9_async_send_resume_send (c : s2n_connection)
    (scheme : s2n_signature_scheme) (sig : list byte) (d : s2n_hash_state) :
  hashes (handshake c) <> None ->
  async_state (handshake c) = NotStarted ->
  async_pkey_cb c = true ->
  growable (io (handshake c)) = true ->
  (if actual_protocol_version c <? S2N_TLS12
   then default_scheme_for (actual_protocol_version c)
          (client_cert_pkey_type (handshake_params c)) = Some scheme
   else chosen_scheme c = scheme) ->
  running_hash (hash_alg scheme) c = Some d ->
  Z.of_nat (length sig) < 2 ^ 16 ->
  let first := send (Some c) in
  let second := resume (Some sig) (conn_of first) in
  let third := send (conn_of second) in
  res_of first = Err AsyncPending
  /\ res_of second = Ok tt
  /\ res_of third = Ok tt
  /\ calls_of third = []
  /\ option_map (fun c3 => async_state (handshake c3)) (conn_of third)
     = Some NotStarted
  /\ option_map (bytes_appended c) (conn_of third)
     = Some (wire_message (actual_protocol_version c <? S2N_TLS12) scheme sig)
  /\ filter is_sign (calls_of first ++ calls_of second)
     = [Call_async_pkey_sign (sig_alg scheme) d]
  /\ filter is_minimize (calls_of first ++ calls_of second)
     = [Call_conn_update_required_handshake_hashes].
Proof.
  intros Hhashes Hstate Hasync Hgrow Hscheme Hrunning Hlen.
  unfold chosen_scheme, running_hash, wire_message in *. cbv zeta.
  destruct (hashes (handshake c)) as [hs|] eqn:Hhs; [clear Hhashes|congruence].
  destruct (actual_protocol_version c <? S2N_TLS12) eqn:Hversion; [|subst scheme].
  all: repeat split; run; try congruence.
  all: unfold s2n_stuffer_write_uint16, s2n_stuffer_write in *; simpl_conn.
  all: repeat match goal with
         | Hg : growable ?s = true, H : s2n_stuffer_write_bytes _ ?s = (_, _) |- _ =>
             apply (write_bytes_growable _ _ _ _ Hg) in H;
             destruct H as (? & ? & ?); try discriminate
         end.
  all: try reflexivity.
  all: rewrite ?Nat2Z.id, ?firstn_all, ?(Z.mod_small (Z.of_nat (length sig))) in *
         by lia.
  all: cbn [option_map]; f_equal; appended.
Qed.

(** *** Bytes around the message *)

(** X10: the receive path does not require the message to end the
    buffer.  When a call succeeds on an input made of the scheme bytes, the
    2-byte length [n], and [rest], the bytes of [rest] after the first [n]
    are left unread in the buffer. *)
Theorem X10_recv_leaves_trailing_bytes (c : s2n_connection) (scheme_bytes : list byte)
    (l0 l1 : byte) (rest : list byte) :
  hashes (handshake c) <> None ->
  length scheme_bytes
  = (if actual_protocol_version c <? S2N_TLS12 then 0%nat else 2%nat) ->
  unread (io (handshake c)) = scheme_bytes ++ l0 :: l1 :: rest ->
  is_ok (res_of (recv (Some c))) = true ->
  exists c',
    conn_of (recv (Some c)) = Some c'
    /\ unread (io (handshake c')) = skipn (Z.to_nat (uint16_of l0 l1)) rest.
Proof.
  intros Hhashes Hlen Hunread.
  pose proof (recv_body_signature_read c scheme_bytes l0 l1 rest Hhashes Hlen Hunread)
    as (_ & Hsigs & Hreached).
  pose proof (recv_body_footprint c) as (Hsame & Hforward).
  unfold s2n_client_cert_verify_recv, with_conn, res_of, conn_of.
  destruct (recv_body c) as [[r c'] l]. cbn [fst snd] in *.
  intros Hok. exists c'. split; [reflexivity|].
  destruct Hsigs as [Hnil | (_ & _ & Hread)]; [destruct (Hreached Hok Hnil)|].
  unfold outside_recv in Hsame. injection Hsame as _ Hwritten _ _ _ _ _ _ _ _ _.
  unfold bytes_read in Hread. unfold unread in *.
  rewrite Hwritten.
  replace (read_cursor (io (handshake c')))
    with (length scheme_bytes + 2 + Z.to_nat (uint16_of l0 l1)
          + read_cursor (io (handshake c)))%nat by lia.
  rewrite <- skipn_skipn, Hunread, skipn_app.
  rewrite skipn_all2 by lia.
  replace (length scheme_bytes + 2 + Z.to_nat (uint16_of l0 l1) - length scheme_bytes)%nat
    with (S (S (Z.to_nat (uint16_of l0 l1)))) by lia.
  reflexivity.
Qed.

Lemma read_uint16_ok_inv (s : s2n_stuffer) (v : Z) (s' : s2n_stuffer) :
  s2n_stuffer_read_uint16 s = (Ok v, s') ->
  (2 <= length (unread s))%nat /\ s' = skip_read 2 s.
Proof.
  unfold s2n_stuffer_read_uint16.
  destruct (unread s) as [|b0 [|b1 tl]]; intros [= <- <-]; cbn; split;
    reflexivity || lia.
Qed.

Lemma recv_body_short_header (c : s2n_connection) :
  Z.of_nat (length (unread (io (handshake c))))
  < (if actual_protocol_version c <? S2N_TLS12 then 2 else 4) ->
  is_ok (fst (fst (recv_body c))) = false
  /\ existsb is_verify (snd (recv_body c)) = false
  /\ existsb is_minimize (snd (recv_body c)) = false
  /\ workspace (snd (fst (recv_body c))) = workspace c.
Proof.
  intros Hshort. unfold workspace.
  repeat split; run; try reflexivity; try congruence.
  all: repeat match goal with
         | H : s2n_stuffer_read_uint16 _ = (Ok _, _) |- _ =>
             apply read_uint16_ok_inv in H; destruct H as [? ->]
         end.
  all: rewrite ?unread_skip_read, ?length_skipn in *; lia.
Qed.

(** X11: an input too short to hold the header (the 2-byte length, after
    the 2-byte scheme identifier from TLS 1.2 on), the empty input included,
    makes the receive path fail before any verification or minimization,
    with the workspace as it was. *)
Theorem X11_recv_short_header (c : s2n_connection) :
  Z.of_nat (length (unread (io (handshake c))))
  < (if actual_protocol_version c <? S2N_TLS12 then 2 else 4) ->
  exists c',
    conn_of (recv (Some c)) = Some c'
    /\ is_ok (res_of (recv (Some c))) = false
    /\ existsb is_verify (calls_of (recv (Some c))) = false
    /\ existsb is_minimize (calls_of (recv (Some c))) = false
    /\ workspace c' = workspace c.
Proof.
  intros Hshort. pose proof (recv_body_short_header c Hshort) as Hbody.
  unfold s2n_client_cert_verify_recv, with_conn, res_of, conn_of, calls_of.
  destruct (recv_body c) as [[r c'] l]. cbn [fst snd] in *.
  exists c'. split; [reflexivity | exact Hbody].
Qed.

End Properties.

(** ** The theorems at the concrete instance *)

Section Instance.

Import Example.

Lemma C10_null_hashes_example :
  recv (Some client_without_hashes)
  = (Err NullReference, Some client_without_hashes, [])
  /\ send (Some client_without_hashes)
     = (Err NullReference, Some client_without_hashes, []).
Proof.
  apply (C10_null_checks_come_first TLS12 default_scheme_for validate_offered
           pkey_verify pkey_sign hash_still_required (Some client_without_hashes)).
  right. exists client_without_hashes. split; reflexivity.
Defined.

Lemma C4_unoffered_scheme_example :
  recv (Some (server TLS12 unoffered_message))
  = (Err NegotiationError,
     Some (set_io (skip_read 2 (io (handshake (server TLS12 unoffered_message))))
             (server TLS12 unoffered_message)),
     [Call_get_and_validate_negotiated_signature_scheme]).
Proof.
  apply (C4_unoffered_scheme_rejected TLS12 default_scheme_for validate_offered
           pkey_verify hash_still_required (server TLS12 unoffered_message)
           Byte.x04 Byte.x04
           [Byte.x00; Byte.x03; Byte.x2a; Byte.x02; Byte.x03]).
  - discriminate.
  - vm_compute. discriminate.
  - reflexivity.
  - reflexivity.
Defined.

Lemma C3_forged_signature_example :
  is_ok (res_of (recv (Some (server TLS12 forged_message)))) = false
  /\ existsb is_minimize (calls_of (recv (Some (server TLS12 forged_message))))
     = false.
Proof.
  apply (C3_minimize_iff_verified TLS12 default_scheme_for validate_offered
           pkey_verify hash_still_required (Some (server TLS12 forged_message))).
  reflexivity.
Defined.

Lemma C5_truncated_signature_example :
  exists c',
    conn_of (recv (Some (server TLS12 truncated_message))) = Some c'
    /\ is_ok (res_of (recv (Some (server TLS12 truncated_message)))) = false
    /\ (bytes_read (server TLS12 truncated_message) c' <= 4)%nat.
Proof.
  destruct (C5_signature_read_is_bounded TLS12 default_scheme_for validate_offered
              pkey_verify hash_still_required (server TLS12 truncated_message)
              [Byte.x04; Byte.x03] Byte.x00 Byte.x09 [Byte.x2a; Byte.x02; Byte.x03])
    as (c' & Hconn & _ & Htruncated & _).
  - discriminate.
  - reflexivity.
  - reflexivity.
  - exists c'. split; [exact Hconn|].
    destruct Htruncated as (Hfailed & _ & Hread); [vm_compute; reflexivity|].
    split; [exact Hfailed | exact Hread].
Defined.

Lemma C6_scheme_id_written_example :
  exists cs,
    conn_of (send (Some client)) = Some cs
    /\ chosen_scheme cs = chosen_scheme client.
Proof.
  destruct (C6_default_below_TLS12_scheme_id_from_TLS12 TLS12 default_scheme_for
              validate_offered pkey_verify pkey_sign hash_still_required client)
    as (cr & cs & _ & Hsend & _ & Hmodern).
  - discriminate.
  - reflexivity.
  - exists cs. split; [exact Hsend|].
    apply Hmodern. vm_compute. discriminate.
Defined.

Lemma C7_pending_example :
  send (Some pending_client) = (Err AsyncPending, Some pending_client, []).
Proof.
  apply (C7_reinvocation_does_not_resubmit TLS12 default_scheme_for pkey_sign
           hash_still_required pending_client).
  - discriminate.
  - reflexivity.
Defined.

(** C8 as stated fails: the client without a running SHA-256 state fails
    in the snapshot, after the scheme identifier has been written; the
    two bytes 04 03 stay in the buffer, and they are not a whole message. *)
Lemma C8_scheme_id_left_after_failed_snapshot :
  ~ failed_send_leaves_no_partial_write TLS12 default_scheme_for pkey_sign
      hash_still_required.
Proof.
  intros Hclaim.
  destruct (Hclaim client_without_sha256 _ _ _ eq_refl)
    as [Hnothing | (scheme_bytes & sig & Hlen & Hwhole)].
  - discriminate Hnothing.
  - apply (f_equal (@length byte)) in Hwhole.
    rewrite !length_app, Hlen in Hwhole. cbn in Hwhole. lia.
Qed.

Lemma C8_failed_minimization_example :
  leaves_buffer_alone failing_update
  /\ exists cs,
       conn_of (send_with failing_update (Some client)) = Some cs
       /\ res_of (send_with failing_update (Some client)) = Err NullReference
       /\ bytes_appended client cs = message.
Proof.
  assert (Hcallee : leaves_buffer_alone failing_update) by (intros c; split; reflexivity).
  split; [exact Hcallee|].
  destruct (C8_failed_send_keeps_its_writes TLS12 default_scheme_for pkey_sign
              failing_update client (mk_blob [] 0) Hcallee)
    as (cs & Hconn & _ & _ & Hleft & Hreturns & _).
  exists cs. split; [exact Hconn|]. split.
  - destruct Hreturns as (c2 & Hres & _); [reflexivity|]. exact Hres.
  - destruct Hleft as (_ & _ & Hsigned); [discriminate | reflexivity |].
    apply (Hsigned ECDSA [Byte.x02; Byte.x03]).
    vm_compute. tauto.
Defined.

(** C9 as stated fails: after the server has received the client's
    message, the connection holds the scheme of the message instead of the
    one it held before, and the workspace holds the snapshot. *)
Lemma C9_scheme_retained_after_recv :
  ~ scheme_and_snapshot_do_not_outlive_recv TLS12 default_scheme_for
      validate_offered pkey_verify hash_still_required.
Proof.
  intros Hclaim.
  destruct (Hclaim (server TLS12 message) _ _ _ eq_refl) as [Hscheme _].
  discriminate Hscheme.
Qed.

Lemma C9_retained_example :
  existsb is_verify (calls_of (recv (Some (server TLS12 message)))) = true.
Proof.
  destruct (C9_scheme_and_snapshot_stay_in_connection TLS12 default_scheme_for
              validate_offered pkey_verify pkey_sign hash_still_required
              (server TLS12 message))
    as (cr & cs & _ & _ & _ & Hreached & _).
  apply Hreached. reflexivity.
Defined.

Lemma example_key_pair : valid_key_pair pkey_verify pkey_sign key key.
Proof.
  intros alg d sig d' [= <- _]. cbn [fst pkey_verify size data].
  rewrite Nat2Z.id, firstn_all. unfold bytes_eqb.
  destruct (list_eq_dec _ _ _) as [_ | Hdiffer]; [reflexivity|].
  exfalso. apply Hdiffer. reflexivity.
Defined.

Lemma C1_round_trip_example :
  res_of (recv (Some (server TLS12 message))) = Ok tt
  /\ existsb (is_verify_with true) (calls_of (recv (Some (server TLS12 message))))
     = true.
Proof.
  apply (C1_sent_message_verifies TLS12 default_scheme_for validate_offered
           pkey_verify pkey_sign hash_still_required
           client (server TLS12 message) ecdsa_sha256
           [Byte.x2a; Byte.x02; Byte.x03] [Byte.x02; Byte.x03]
           [Byte.x02; Byte.x03; Byte.xff]).
  - discriminate.
  - reflexivity.
  - reflexivity.
  - repeat split; try reflexivity; try discriminate. exact example_key_pair.
  - unfold scheme_in_use. cbn. repeat split; try reflexivity; try lia.
  - reflexivity.
  - reflexivity.
  - cbn. lia.
  - reflexivity.
Defined.

Lemma X3_call_order_example :
  exists c' d sg,
    conn_of (recv (Some (server TLS12 message))) = Some c'
    /\ running_hash (hash_alg (chosen_scheme c')) (server TLS12 message) = Some d
    /\ calls_of (recv (Some (server TLS12 message)))
       = [Call_get_and_validate_negotiated_signature_scheme;
          Call_handshake_get_hash_state (hash_alg (chosen_scheme c'));
          Call_hash_copy d;
          Call_pkey_verify key (sig_alg (chosen_scheme c')) d sg true;
          Call_conn_update_required_handshake_hashes].
Proof.
  apply (X3_recv_success_call_order TLS12 default_scheme_for validate_offered
           pkey_verify hash_still_required (server TLS12 message)).
  reflexivity.
Defined.

Lemma X4_missing_hash_example :
  is_ok (res_of (recv (Some server_without_sha256))) = false
  /\ existsb is_verify (calls_of (recv (Some server_without_sha256))) = false
  /\ existsb is_minimize (calls_of (recv (Some server_without_sha256))) = false.
Proof.
  destruct (X4_recv_without_running_hash TLS12 default_scheme_for validate_offered
              pkey_verify hash_still_required server_without_sha256
              (set_client_cert_sig_scheme ecdsa_sha256
                 (set_io (mk_stuffer message 7 (length message) false)
                    server_without_sha256)))
    as (Hfailed & Hverify & Hminimize & _).
  - reflexivity.
  - reflexivity.
  - auto.
Defined.

Lemma X5_missing_hash_example :
  is_ok (res_of (send (Some client_without_sha256))) = false
  /\ existsb is_sign (calls_of (send (Some client_without_sha256))) = false.
Proof.
  destruct (X5_send_without_running_hash TLS12 default_scheme_for pkey_sign
              hash_still_required client_without_sha256
              (set_io (mk_stuffer [Byte.x04; Byte.x03] 0 2 true) client_without_sha256))
    as (Hfailed & Hsign & _).
  - reflexivity.
  - reflexivity.
  - reflexivity.
  - auto.
Defined.

Lemma X6_length_field_example :
  exists b0 b1,
    bytes_appended client
      (snd (fst (s2n_client_cert_verify_send_complete hash_still_required
                   signature_blob client)))
    = b0 :: b1 :: data signature_blob
    /\ uint16_of b0 b1 = 3.
Proof.
  destruct (X6_length_field_is_size_mod_2_16 hash_still_required signature_blob client)
    as (b0 & b1 & Happended & Hfield & _).
  - reflexivity.
  - reflexivity.
  - exists b0, b1. split; [exact Happended | exact Hfield].
Defined.

Lemma X8_async_example :
  exists cs,
    conn_of (send (Some async_client)) = Some cs
    /\ is_ok (res_of (send (Some async_client))) = false
    /\ existsb is_minimize (calls_of (send (Some async_client))) = false.
Proof.
  destruct (X8_async_send_defers_the_signature TLS12 default_scheme_for pkey_sign
              hash_still_required async_client)
    as (cs & Hconn & Hfailed & Hminimize & _).
  - reflexivity.
  - reflexivity.
  - exists cs. auto.
Defined.

Lemma X9_async_exchange_example :
  res_of (send (conn_of (resume (Some [Byte.x2a; Byte.x02; Byte.x03])
                            (conn_of (send (Some async_client))))))
  = Ok tt.
Proof.
  apply (X9_async_send_resume_send TLS12 default_scheme_for pkey_sign
           hash_still_required async_client ecdsa_sha256
           [Byte.x2a; Byte.x02; Byte.x03] [Byte.x02; Byte.x03]).
  - discriminate.
  - reflexivity.
  - reflexivity.
  - reflexivity.
  - reflexivity.
  - reflexivity.
  - cbn. lia.
Defined.

Lemma X10_trailing_bytes_example :
  exists c',
    conn_of (recv (Some (server TLS12 message_and_more))) = Some c'
    /\ unread (io (handshake c')) = [Byte.x0b; Byte.x0c].
Proof.
  apply (X10_recv_leaves_trailing_bytes TLS12 default_scheme_for validate_offered
           pkey_verify hash_still_required (server TLS12 message_and_more)
           [Byte.x04; Byte.x03] Byte.x00 Byte.x03
           [Byte.x2a; Byte.x02; Byte.x03; Byte.x0b; Byte.x0c]).
  - discriminate.
  - reflexivity.
  - reflexivity.
  - reflexivity.
Defined.

Lemma X11_empty_input_example :
  exists c',
    conn_of (recv (Some (server TLS12 []))) = Some c'
    /\ is_ok (res_of (recv (Some (server TLS12 [])))) = false
    /\ existsb is_verify (calls_of (recv (Some (server TLS12 [])))) = false
    /\ existsb is_minimize (calls_of (recv (Some (server TLS12 [])))) = false
    /\ workspace c' = workspace (server TLS12 []).
Proof.
  apply (X11_recv_short_header TLS12 default_scheme_for validate_offered
           pkey_verify hash_still_required (server TLS12 [])).
  cbn. lia.
Defined.

End Instance.
